(** * DrawInTheBox: the square ownership / pricing ledger

    A shallow embedding of the grid utilities ([src/utils/gridUtils.ts]),
    the data types ([src/types]) and the state-changing handlers of the
    [App] component (purchase, artwork save, click routing and the
    Firestore snapshot reconciliation), followed by the properties of the
    ownership ledger.

    Conventions of the embedding:
    - a JavaScript [number] holding a square id, a price or a timestamp is
      an integer of [Z] (ids and prices are integers well below 2^53);
    - [string | null] fields are [option string]; the [owner] field is a
      [jsval], because the reconciliation copies [data.owner] of an untyped
      Firestore document into it, so it may be [undefined] at run time;
    - a React handler reads the state captured by the render that created
      it (argument [r]) and queues updates that are applied to the latest
      state (argument [st]); the functional update [setSquares(prev => ...)]
      is the only one that reads the latest state. *)

From Stdlib Require Import ZArith List String Ascii Bool Lia.
From stdpp Require Import base list strings.

Local Open Scope string_scope.
Local Open Scope list_scope.
Local Open Scope Z_scope.

(** ** JavaScript values that reach the [owner] field *)

Inductive jsval : Type :=
  | JUndefined
  | JNull
  | JStr (s : string).

(** Truthiness, as used by [s.owner], [data.owner] and [x || y]. *)
Definition truthy (v : jsval) : bool :=
  match v with
  | JStr s => negb (String.eqb s "")
  | _ => false
  end.

(** [v !== null] *)
Definition not_null (v : jsval) : bool :=
  match v with
  | JNull => false
  | _ => true
  end.

(** [v === s] for a string [s] *)
Definition strict_eq_str (v : jsval) (s : string) : bool :=
  match v with
  | JStr t => String.eqb t s
  | _ => false
  end.

(** [v || d] for a [string | null] target: a falsy [v] gives [d]. *)
Definition or_else (v : jsval) (d : option string) : option string :=
  match v with
  | JStr s => if String.eqb s "" then d else Some s
  | _ => d
  end.

(** ** Types ([src/types]) *)

Record PriceHistoryEntry : Type := mkEntry {
  ph_owner : jsval;
  ph_price : Z;
  ph_timestamp : Z
}.

Record Square : Type := mkSquare {
  sq_id : Z;
  owner : jsval;
  price : Z;
  color : option string;
  imageData : option string;
  priceHistory : list PriceHistoryEntry
}.

Record User : Type := mkUser {
  uid : string;
  email : option string;
  displayName : option string
}.

(** ** Grid utilities ([src/utils/gridUtils.ts]) *)

Module GridUtils.

Definition GRID_SIZE : Z := 120.

Definition INITIAL_SQUARE_PRICE : Z := 1.

Record SquarePosition : Type := mkPos { pos_x : Z; pos_y : Z }.

(** [{ x: id % GRID_SIZE, y: Math.floor(id / GRID_SIZE) }]: JavaScript's
    [%] takes the sign of the dividend ([Z.rem]); [Math.floor] of the
    quotient is the floor division of [Z]. *)
Definition calculateSquarePosition (id : Z) : SquarePosition :=
  {| pos_x := Z.rem id GRID_SIZE; pos_y := id / GRID_SIZE |}.

(** [y * GRID_SIZE + x] *)
Definition calculateSquareId (x y : Z) : Z := y * GRID_SIZE + x.

Definition isValidSquareId (id : Z) : bool :=
  (0 <=? id) && (id <? GRID_SIZE * GRID_SIZE).

(** The object pushed by the loop body of [initializeGrid]. *)
Definition defaultSquare (i : Z) : Square :=
  {| sq_id := i;
     owner := JNull;
     price := 1;
     color := Some "#ffffff";
     imageData := None;
     priceHistory := [] |}.

(** [for (let i = 0; i < GRID_SIZE * GRID_SIZE; i++) squares.push(...)] *)
Definition initializeGrid : list Square :=
  defaultSquare <$> seqZ 0 (GRID_SIZE * GRID_SIZE).

End GridUtils.

Import GridUtils.

(** ** Firestore documents of the [squares] collection *)

(** The fields of a stored document, as [doc.data()] returns them.
    A field that is absent reads as [undefined] ([None] for the two
    fields the reconciliation never reads). *)
Record DocData : Type := mkDoc {
  d_owner : jsval;
  d_imageData : jsval;
  d_color : jsval;
  d_price : option Z;
  d_priceHistory : option (list PriceHistoryEntry)
}.

(** One document of a query snapshot: [doc_id] is [parseInt(doc.id)]
    (the application names documents [selectedSquare.toString()]). *)
Record QueryDoc : Type := mkQueryDoc {
  doc_id : Z;
  doc_data : DocData
}.

(** The payload of a [setDoc(ref, payload, { merge: true })]: [None] is
    a field left out of the payload, [Some v] a field written with [v]. *)
Record DocWrite : Type := mkWrite {
  w_owner : option jsval;
  w_price : option Z;
  w_priceHistory : option (list PriceHistoryEntry);
  w_imageData : option (option string);
  w_color : option (option string);
  w_updatedAt : option Z
}.

Definition js_of_option (o : option string) : jsval :=
  match o with
  | Some s => JStr s
  | None => JNull
  end.

(** Firestore's merge: the fields of the payload replace the stored
    ones, every other stored field is kept. *)
Definition mergeDoc (w : DocWrite) (d : DocData) : DocData :=
  {| d_owner := default (d_owner d) (w_owner w);
     d_imageData := default (d_imageData d) (js_of_option <$> w_imageData w);
     d_color := default (d_color d) (js_of_option <$> w_color w);
     d_price := match w_price w with Some p => Some p | None => d_price d end;
     d_priceHistory :=
       match w_priceHistory w with
       | Some h => Some h
       | None => d_priceHistory d
       end |}.

(** A document that does not exist yet. *)
Definition emptyDoc : DocData :=
  {| d_owner := JUndefined;
     d_imageData := JUndefined;
     d_color := JUndefined;
     d_price := None;
     d_priceHistory := None |}.

(** ** The [App] component ([App.tsx]) *)

Module App.

(** The [useState] cells that the modelled handlers read or write. *)
Record AppState : Type := mkState {
  squares : list Square;
  user : option User;
  selectedSquare : option Z;
  currentSquare : option Square;
  authModalOpen : bool;
  paymentModalOpen : bool;
  viewSquareModalOpen : bool;
  drawingCanvasOpen : bool;
  isEditing : bool;
  isProcessingPayment : bool;
  purchaseSuccess : bool;
  isLoadingSquares : bool
}.

Definition setSquares (f : list Square -> list Square) (st : AppState) : AppState :=
  mkState (f (squares st)) (user st) (selectedSquare st) (currentSquare st)
    (authModalOpen st) (paymentModalOpen st) (viewSquareModalOpen st)
    (drawingCanvasOpen st) (isEditing st) (isProcessingPayment st)
    (purchaseSuccess st) (isLoadingSquares st).

Definition setUser (u : option User) (st : AppState) : AppState :=
  mkState (squares st) u (selectedSquare st) (currentSquare st)
    (authModalOpen st) (paymentModalOpen st) (viewSquareModalOpen st)
    (drawingCanvasOpen st) (isEditing st) (isProcessingPayment st)
    (purchaseSuccess st) (isLoadingSquares st).

Definition setSelectedSquare (k : option Z) (st : AppState) : AppState :=
  mkState (squares st) (user st) k (currentSquare st)
    (authModalOpen st) (paymentModalOpen st) (viewSquareModalOpen st)
    (drawingCanvasOpen st) (isEditing st) (isProcessingPayment st)
    (purchaseSuccess st) (isLoadingSquares st).

Definition setCurrentSquare (c : option Square) (st : AppState) : AppState :=
  mkState (squares st) (user st) (selectedSquare st) c
    (authModalOpen st) (paymentModalOpen st) (viewSquareModalOpen st)
    (drawingCanvasOpen st) (isEditing st) (isProcessingPayment st)
    (purchaseSuccess st) (isLoadingSquares st).

Definition setAuthModalOpen (b : bool) (st : AppState) : AppState :=
  mkState (squares st) (user st) (selectedSquare st) (currentSquare st)
    b (paymentModalOpen st) (viewSquareModalOpen st)
    (drawingCanvasOpen st) (isEditing st) (isProcessingPayment st)
    (purchaseSuccess st) (isLoadingSquares st).

Definition setPaymentModalOpen (b : bool) (st : AppState) : AppState :=
  mkState (squares st) (user st) (selectedSquare st) (currentSquare st)
    (authModalOpen st) b (viewSquareModalOpen st)
    (drawingCanvasOpen st) (isEditing st) (isProcessingPayment st)
    (purchaseSuccess st) (isLoadingSquares st).

Definition setViewSquareModalOpen (b : bool) (st : AppState) : AppState :=
  mkState (squares st) (user st) (selectedSquare st) (currentSquare st)
    (authModalOpen st) (paymentModalOpen st) b
    (drawingCanvasOpen st) (isEditing st) (isProcessingPayment st)
    (purchaseSuccess st) (isLoadingSquares st).

Definition setDrawingCanvasOpen (b : bool) (st : AppState) : AppState :=
  mkState (squares st) (user st) (selectedSquare st) (currentSquare st)
    (authModalOpen st) (paymentModalOpen st) (viewSquareModalOpen st)
    b (isEditing st) (isProcessingPayment st)
    (purchaseSuccess st) (isLoadingSquares st).

Definition setIsEditing (b : bool) (st : AppState) : AppState :=
  mkState (squares st) (user st) (selectedSquare st) (currentSquare st)
    (authModalOpen st) (paymentModalOpen st) (viewSquareModalOpen st)
    (drawingCanvasOpen st) b (isProcessingPayment st)
    (purchaseSuccess st) (isLoadingSquares st).

Definition setIsProcessingPayment (b : bool) (st : AppState) : AppState :=
  mkState (squares st) (user st) (selectedSquare st) (currentSquare st)
    (authModalOpen st) (paymentModalOpen st) (viewSquareModalOpen st)
    (drawingCanvasOpen st) (isEditing st) b
    (purchaseSuccess st) (isLoadingSquares st).

Definition setPurchaseSuccess (b : bool) (st : AppState) : AppState :=
  mkState (squares st) (user st) (selectedSquare st) (currentSquare st)
    (authModalOpen st) (paymentModalOpen st) (viewSquareModalOpen st)
    (drawingCanvasOpen st) (isEditing st) (isProcessingPayment st)
    b (isLoadingSquares st).

Definition setIsLoadingSquares (b : bool) (st : AppState) : AppState :=
  mkState (squares st) (user st) (selectedSquare st) (currentSquare st)
    (authModalOpen st) (paymentModalOpen st) (viewSquareModalOpen st)
    (drawingCanvasOpen st) (isEditing st) (isProcessingPayment st)
    (purchaseSuccess st) b.

(** [useState] initial values. *)
Definition initialState : AppState :=
  mkState initializeGrid None None None
    false false false false false false false true.

(** [!selectedSquare] on a [number | null]: [null] and [0] are falsy. *)
Definition falsyNumber (n : option Z) : bool :=
  match n with
  | None => true
  | Some z => z =? 0
  end.

(** [squares.find(s => s.id === k)] *)
Definition findSquare (sqs : list Square) (k : Z) : option Square :=
  List.find (fun s => sq_id s =? k) sqs.

(** [isOwned ? square.price * 2 : square.price], with
    [isOwned = square.owner !== null]: the expression of
    [finalizeSquarePurchase] and of the Stripe checkout button. *)
Definition quotedPrice (square : Square) : Z :=
  if not_null (owner square) then price square * 2 else price square.

(** The [amount] prop handed to [PaymentModal], which prints it as the
    price: [selectedSquare ? squares.find(...)?.price || 1 : 0]. *)
Definition paymentModalAmount (r : AppState) : Z :=
  match selectedSquare r with
  | None => 0
  | Some k =>
      if k =? 0 then 0
      else match findSquare (squares r) k with
           | Some s => if price s =? 0 then 1 else price s
           | None => 1
           end
  end.

(** The label of the buy button of the view modal:
    [(currentSquare.price || 1) * 2]. *)
Definition viewModalBuyPrice (c : Square) : Z :=
  (if price c =? 0 then 1 else price c) * 2.

(** *** Reconciliation with the Firestore snapshot *)

(** The body of [snapshot.forEach]: inside the bounds the square is
    rebuilt from the one in place with [owner], [imageData] and [color]
    taken from the document; outside the bounds nothing happens. *)
Definition applySnapshotDoc (updatedSquares : list Square) (d : QueryDoc)
    : list Square :=
  let data := doc_data d in
  let squareId := doc_id d in
  if (0 <=? squareId) && (squareId <? Z.of_nat (length updatedSquares)) then
    match updatedSquares !! Z.to_nat squareId with
    | Some s =>
        <[ Z.to_nat squareId :=
           {| sq_id := sq_id s;
              owner := d_owner data;
              price := price s;
              color := or_else (d_color data) (Some "#ffffff");
              imageData := or_else (d_imageData data) None;
              priceHistory := priceHistory s |} ]> updatedSquares
    | None => updatedSquares
    end
  else updatedSquares.

(** [updatedSquares = [...initializeGrid()]; snapshot.forEach(...)] *)
Definition reconcile (docs : list QueryDoc) : list Square :=
  fold_left applySnapshotDoc docs initializeGrid.

(** The [onSnapshot] callback. *)
Definition onSquaresSnapshot (docs : list QueryDoc) (st : AppState) : AppState :=
  setIsLoadingSquares false (setSquares (fun _ => reconcile docs) st).

(** *** Click routing *)

(** [square.imageData || square.color !== '#ffffff'] *)
Definition hasDrawing (square : Square) : bool :=
  match imageData square with
  | Some d => negb (String.eqb d "")
  | None => false
  end
  || match color square with
     | Some c => negb (String.eqb c "#ffffff")
     | None => true
     end.

Definition handleSquareClick (r : AppState) (squareId : Z) (st : AppState)
    : AppState :=
  let st := setSelectedSquare (Some squareId) st in
  match findSquare (squares r) squareId with
  | None => st
  | Some square =>
      match user r with
      | None => setAuthModalOpen true st
      | Some u =>
          if strict_eq_str (owner square) (uid u) then
            setDrawingCanvasOpen true
              (setIsEditing true (setCurrentSquare (Some square) st))
          else if not_null (owner square) && hasDrawing square then
            setViewSquareModalOpen true (setCurrentSquare (Some square) st)
          else setPaymentModalOpen true st
      end
  end.

(** *** Purchase *)

(** The function mapped over [prevSquares] by [finalizeSquarePurchase];
    [isOwned] and [newPrice] come from the square found in the handler's
    own snapshot, [s] is the square of the latest grid. *)
Definition purchaseUpdate (selected : Z) (buyer : string) (isOwned : bool)
    (newPrice now : Z) (s : Square) : Square :=
  if sq_id s =? selected then
    let newPriceHistory :=
      priceHistory s ++
      (if isOwned && truthy (owner s)
       then [ {| ph_owner := owner s; ph_price := price s; ph_timestamp := now |} ]
       else []) in
    {| sq_id := sq_id s;
       owner := JStr buyer;
       price := newPrice;
       color := if isOwned then color s else Some "#ffffff";
       imageData := if isOwned then imageData s else None;
       priceHistory := newPriceHistory |}
  else s.

(** The payload of the [setDoc] of [finalizeSquarePurchase]; an array is
    always truthy, so [square.priceHistory ? [...] : []] takes its first
    branch. *)
Definition purchaseWrite (buyer : string) (square : Square) (now : Z) : DocWrite :=
  let isOwned := not_null (owner square) in
  {| w_owner := Some (JStr buyer);
     w_price := Some (quotedPrice square);
     w_priceHistory :=
       Some (priceHistory square ++
             (if isOwned
              then [ {| ph_owner := owner square; ph_price := price square;
                        ph_timestamp := now |} ]
              else []));
     w_imageData := if isOwned then None else Some None;
     w_color := if isOwned then None else Some (Some "#ffffff");
     w_updatedAt := Some now |}.

(** [finalizeSquarePurchase]: [r] is the render the handler closes over
    (it gives [selectedSquare], [user] and the [squares] searched for the
    quote), [st] the latest state, which the queued updates transform.
    [nowLocal] and [nowStore] are the two readings of [Date.now()];
    [storeOk] tells whether [setDoc] resolved ([false]: it threw and the
    [catch] branch ran). The result pairs the new state with the
    documents written. *)
Definition finalizeSquarePurchase (r : AppState) (nowLocal nowStore : Z)
    (storeOk : bool) (st : AppState) : AppState * list (Z * DocWrite) :=
  match selectedSquare r, user r with
  | Some selected, Some u =>
      if selected =? 0 then (st, [])
      else
        match findSquare (squares r) selected with
        | None => (setIsProcessingPayment false st, [])
        | Some square =>
            let isOwned := not_null (owner square) in
            let newPrice := quotedPrice square in
            let st1 :=
              setSquares
                (map (purchaseUpdate selected (uid u) isOwned newPrice nowLocal))
                st in
            if storeOk then
              (setIsProcessingPayment false (setPurchaseSuccess true st1),
               [ (selected, purchaseWrite (uid u) square nowStore) ])
            else (setIsProcessingPayment false st1, [])
        end
  | _, _ => (st, [])
  end.

(** *** Saving a drawing *)

Definition saveUpdate (target : Z) (img : string) (s : Square) : Square :=
  if sq_id s =? target then
    {| sq_id := sq_id s;
       owner := owner s;
       price := price s;
       color := color s;
       imageData := Some img;
       priceHistory := priceHistory s |}
  else s.

Definition saveWrite (editor : string) (img : string) : DocWrite :=
  {| w_owner := Some (JStr editor);
     w_price := None;
     w_priceHistory := None;
     w_imageData := Some (Some img);
     w_color := None;
     w_updatedAt := None |}.

Definition handleSaveDrawing (r : AppState) (img : string) (storeOk : bool)
    (st : AppState) : AppState * list (Z * DocWrite) :=
  match currentSquare r, user r with
  | Some cs, Some u =>
      let st1 := setSquares (map (saveUpdate (sq_id cs) img)) st in
      if storeOk then
        (setCurrentSquare None (setDrawingCanvasOpen false st1),
         [ (sq_id cs, saveWrite (uid u) img) ])
      else (st1, [])
  | _, _ => (st, [])
  end.

(** The [isOwner] prop handed to [DrawingCanvas], which ignores the
    mouse when it is false:
    [!!currentSquare && currentSquare.owner === user?.uid]. *)
Definition canvasIsOwner (r : AppState) : bool :=
  match currentSquare r, user r with
  | Some cs, Some u => strict_eq_str (owner cs) (uid u)
  | _, _ => false
  end.

(** *** Runs of purchases *)

(** One purchase of square [k] by [buyer] on a fresh render: the handler
    closes over the state it transforms. *)
Definition purchase (k : Z) (buyer : string) (now : Z) (st : AppState) : AppState :=
  let r := setUser (Some (mkUser buyer None None)) (setSelectedSquare (Some k) st) in
  fst (finalizeSquarePurchase r now now true r).

(** Successive purchases of the same square, oldest first. *)
Fixpoint purchases (k : Z) (buyers : list (string * Z)) (st : AppState) : AppState :=
  match buyers with
  | [] => st
  | (b, now) :: rest => purchases k rest (purchase k b now st)
  end.

End App.

(** ** Invariants of the grid used in the proofs *)

(** No two squares of the grid share an id. *)
Definition uniqueIds (l : list Square) : Prop := NoDup (sq_id <$> l).

(** What every square of a reconciled grid retains from the default
    grid, whatever the documents hold. *)
Definition keepsDefaults (l : list Square) : Prop :=
  forall (i : nat) (s : Square),
    l !! i = Some s ->
    sq_id s = Z.of_nat i /\ price s = 1 /\ priceHistory s = [].

(** ** Concrete sessions used in the examples below *)

Module Scenario.

Import App.

Definition alice : User := mkUser "alice" (Some "alice@example.org") (Some "Alice").
Definition bob : User := mkUser "bob" (Some "bob@example.org") (Some "Bob").

Definition drawing : string := "data:image/jpeg;base64,/9j/4AAQ".

(** Bob is signed in and the first (empty) snapshot has arrived. *)
Definition bobReady : AppState :=
  setUser (Some bob) (onSquaresSnapshot [] initialState).

(** The stored document of square 7 once Alice owns it and has drawn on
    it: what her purchase and her save wrote, merged. *)
Definition docAliceDrew : DocData :=
  mergeDoc (saveWrite "alice" drawing)
    (mergeDoc (purchaseWrite "alice" (defaultSquare 7) 1000) emptyDoc).

(** The stored document of square 7 right after Alice bought it. *)
Definition docAliceBought : DocData :=
  mergeDoc (purchaseWrite "alice" (defaultSquare 7) 1000) emptyDoc.

(** The same for a purchase by Bob. *)
Definition docBobBought : DocData :=
  mergeDoc (purchaseWrite "bob" (defaultSquare 7) 1000) emptyDoc.

(** A document with artwork whose owner is [null]. *)
Definition docUnownedDrawing : DocData :=
  {| d_owner := JNull;
     d_imageData := JStr drawing;
     d_color := JStr "#ff0000";
     d_price := Some 1;
     d_priceHistory := Some [] |}.

End Scenario.

(** ** JavaScript numbers that are not finite

    The layout functions divide by values computed from the window size,
    which can be zero. On integers, [Math.floor(a / b)] is the floor
    division of [Z] when [b] is not zero; for [b = 0] it is [Infinity],
    [-Infinity] or [NaN]. *)

Module JsNumber.

Inductive jsnum : Type :=
  | Fin (z : Z)
  | PInf
  | NInf
  | NaN.

(** [Math.floor(a / b)] for integers [a] and [b] (a zero [b] is [+0]). *)
Definition floorDiv (a b : Z) : jsnum :=
  if b =? 0 then
    (if 0 <? a then PInf else if a <? 0 then NInf else NaN)
  else Fin (a / b).

(** [Math.floor(a / d)] for an integer [a]: a quotient by an infinity
    is a zero. *)
Definition floorDivNum (a : Z) (d : jsnum) : jsnum :=
  match d with
  | Fin b => floorDiv a b
  | PInf | NInf => Fin 0
  | NaN => NaN
  end.

(** [Math.min(x, y)] *)
Definition jsMin (x y : jsnum) : jsnum :=
  match x, y with
  | NaN, _ | _, NaN => NaN
  | NInf, _ | _, NInf => NInf
  | PInf, v | v, PInf => v
  | Fin a, Fin b => Fin (Z.min a b)
  end.

(** [Math.max(x, y)] *)
Definition jsMax (x y : jsnum) : jsnum :=
  match x, y with
  | NaN, _ | _, NaN => NaN
  | PInf, _ | _, PInf => PInf
  | NInf, v | v, NInf => v
  | Fin a, Fin b => Fin (Z.max a b)
  end.

(** [x * y]; the two zeros are not told apart. *)
Definition jsMul (x y : jsnum) : jsnum :=
  match x, y with
  | NaN, _ | _, NaN => NaN
  | Fin a, Fin b => Fin (a * b)
  | Fin a, PInf | PInf, Fin a =>
      if 0 <? a then PInf else if a <? 0 then NInf else NaN
  | Fin a, NInf | NInf, Fin a =>
      if 0 <? a then NInf else if a <? 0 then PInf else NaN
  | PInf, PInf | NInf, NInf => PInf
  | PInf, NInf | NInf, PInf => NInf
  end.

End JsNumber.

(** ** The rest of the grid utilities ([src/utils/gridUtils.ts]) *)

Module GridGeometry.

Import JsNumber.

Definition SQUARE_MIN_SIZE : Z := 14.
Definition SQUARE_MAX_SIZE : Z := 24.

Record GridSize : Type := mkGridSize {
  gs_width : jsnum;
  gs_height : jsnum;
  gs_squareSize : jsnum;
  gs_visibleCols : jsnum;
  gs_visibleRows : jsnum
}.

(** [calculateGridSize(windowWidth, windowHeight)] *)
Definition calculateGridSize (windowWidth windowHeight : Z) : GridSize :=
  let headerHeight := 60 in
  let availableHeight := windowHeight - headerHeight - 20 in
  let availableWidth := windowWidth - 20 in
  let maxVisibleCols := availableWidth / SQUARE_MIN_SIZE in
  let maxVisibleRows := availableHeight / SQUARE_MIN_SIZE in
  let squareSize :=
    jsMax (Fin SQUARE_MIN_SIZE)
      (jsMin (jsMin (floorDiv availableWidth (Z.min maxVisibleCols GRID_SIZE))
                    (floorDiv availableHeight (Z.min maxVisibleRows GRID_SIZE)))
             (Fin SQUARE_MAX_SIZE)) in
  let visibleCols := jsMin (floorDivNum availableWidth squareSize) (Fin GRID_SIZE) in
  let visibleRows := jsMin (floorDivNum availableHeight squareSize) (Fin GRID_SIZE) in
  {| gs_width := jsMul visibleCols squareSize;
     gs_height := jsMul visibleRows squareSize;
     gs_squareSize := squareSize;
     gs_visibleCols := visibleCols;
     gs_visibleRows := visibleRows |}.

(** [areNeighbors(pos1, pos2)] *)
Definition areNeighbors (pos1 pos2 : SquarePosition) : bool :=
  let rowDiff := Z.abs (pos_y pos1 - pos_y pos2) in
  let colDiff := Z.abs (pos_x pos1 - pos_x pos2) in
  ((rowDiff =? 1) && (colDiff =? 0)) || ((rowDiff =? 0) && (colDiff =? 1)).

Record GridDimensionsResult : Type := mkGridDimensions {
  gd_gridSize : Z;
  gd_squareSize : Z
}.

(** [calculateGridDimensions(windowWidth, windowHeight)]: every divisor
    is a positive constant or lies between 50 and 200. *)
Definition calculateGridDimensions (windowWidth windowHeight : Z)
    : GridDimensionsResult :=
  let headerHeight := 40 in
  let availableHeight := windowHeight - headerHeight in
  let MIN_GRID_SIZE := 50 in
  let MAX_GRID_SIZE := 200 in
  let MIN_SQUARE_SIZE := 6 in
  let maxHorizontalSquares := windowWidth / MIN_SQUARE_SIZE in
  let maxVerticalSquares := availableHeight / MIN_SQUARE_SIZE in
  let desiredGridSize0 := Z.min maxHorizontalSquares maxVerticalSquares in
  let desiredGridSize :=
    Z.max MIN_GRID_SIZE (Z.min desiredGridSize0 MAX_GRID_SIZE) in
  let squareSize :=
    Z.min (windowWidth / desiredGridSize) (availableHeight / desiredGridSize) in
  {| gd_gridSize := desiredGridSize; gd_squareSize := squareSize |}.

Record FullScreenSize : Type := mkFullScreenSize {
  fs_width : Z;
  fs_height : Z;
  fs_squareSize : Z
}.

(** [calculateGridSizeForFullScreen(windowWidth, windowHeight)] *)
Definition calculateGridSizeForFullScreen (windowWidth windowHeight : Z)
    : FullScreenSize :=
  let availableWidth := windowWidth in
  let availableHeight := windowHeight - 52 in
  let squareSizeWidth := Z.max (availableWidth / GRID_SIZE) 1 in
  let squareSizeHeight := Z.max (availableHeight / GRID_SIZE) 1 in
  let squareSize := Z.max squareSizeWidth squareSizeHeight in
  let totalWidth := GRID_SIZE * squareSize in
  let totalHeight := GRID_SIZE * squareSize in
  {| fs_width := totalWidth; fs_height := totalHeight; fs_squareSize := squareSize |}.

(** [isValidSquarePosition(x, y)] *)
Definition isValidSquarePosition (x y : Z) : bool :=
  (0 <=? x) && (x <? GRID_SIZE) && (0 <=? y) && (y <? GRID_SIZE).

Definition directions : list (Z * Z) :=
  [ (-1, -1); (0, -1); (1, -1);
    (-1, 0);           (1, 0);
    (-1, 1);  (0, 1);  (1, 1) ].

(** [getNeighborSquareIds(id)]: the loop pushes the id of each of the
    eight shifted positions that is valid. *)
Definition getNeighborSquareIds (id : Z) : list Z :=
  let p := calculateSquarePosition id in
  fold_left
    (fun neighbors d =>
       let nx := pos_x p + fst d in
       let ny := pos_y p + snd d in
       if isValidSquarePosition nx ny
       then neighbors ++ [calculateSquareId nx ny]
       else neighbors)
    directions [].

(** What one round of that loop contributes: the id of the position
    shifted by [d], when it is valid. *)
Definition neighborAt (p : SquarePosition) (d : Z * Z) : option Z :=
  if isValidSquarePosition (pos_x p + fst d) (pos_y p + snd d)
  then Some (calculateSquareId (pos_x p + fst d) (pos_y p + snd d))
  else None.

Record VisibleSquares : Type := mkVisibleSquares {
  startCol : Z;
  endCol : Z;
  startRow : Z;
  endRow : Z;
  visibleSquareIds : list Z
}.

(** [Math.ceil(a / b)] for integers, [b] not zero. *)
Definition ceilDiv (a b : Z) : Z := - ((- a) / b).

(** [calculateVisibleSquares(scrollLeft, scrollTop, width, height,
    squareSize)] for a [squareSize] that is not zero. With a zero
    [squareSize] the bounds are infinite or [NaN] and the loops need not
    end: those runs are outside the model ([None]). *)
Definition calculateVisibleSquares
    (scrollLeft scrollTop width height squareSize : Z) : option VisibleSquares :=
  if squareSize =? 0 then None
  else
    let startCol := scrollLeft / squareSize in
    let endCol := Z.min (ceilDiv (scrollLeft + width) squareSize) GRID_SIZE in
    let startRow := scrollTop / squareSize in
    let endRow := Z.min (ceilDiv (scrollTop + height) squareSize) GRID_SIZE in
    let visibleSquareIds :=
      row ← seqZ startRow (endRow - startRow);
      col ← seqZ startCol (endCol - startCol);
      [calculateSquareId col row] in
    Some {| startCol := startCol; endCol := endCol;
            startRow := startRow; endRow := endRow;
            visibleSquareIds := visibleSquareIds |}.

End GridGeometry.

(** ** Statistics shown by the application *)

Module AppStats.

(** The constants computed by the [gridStats] memo of [App]; its fourth
    one, [percentagePurchased], is a floating-point quotient and is left
    out. *)
Definition totalSquares : Z := GRID_SIZE * GRID_SIZE.

(** [squares.reduce((count, square) =>
      square.owner !== null ? count + 1 : count, 0)] *)
Definition purchasedSquares (sqs : list Square) : Z :=
  fold_left
    (fun count square => if not_null (owner square) then count + 1 else count)
    sqs 0.

Definition availableSquares (sqs : list Square) : Z :=
  totalSquares - purchasedSquares sqs.

End AppStats.

Module FullCanvasView.

Record ViewStats : Type := mkViewStats {
  vs_totalSquares : Z;
  vs_purchasedSquares : Z;
  vs_squaresWithImages : Z;
  vs_totalRevenue : Z
}.

(** Truthiness of a [string | null]. *)
Definition truthyString (o : option string) : bool :=
  match o with
  | Some s => negb (String.eqb s "")
  | None => false
  end.

(** The statistics effect of [FullCanvasView]:
    [squares.length], [squares.filter(s => s.owner).length],
    [squares.filter(s => s.imageData).length] and
    [squares.reduce((acc, s) => acc + (s.price || 0), 0)]. *)
Definition computeStats (sqs : list Square) : ViewStats :=
  {| vs_totalSquares := Z.of_nat (length sqs);
     vs_purchasedSquares :=
       Z.of_nat (length (List.filter (fun s => truthy (owner s)) sqs));
     vs_squaresWithImages :=
       Z.of_nat (length (List.filter (fun s => truthyString (imageData s)) sqs));
     vs_totalRevenue :=
       fold_left (fun acc s => acc + (if price s =? 0 then 0 else price s)) sqs 0 |}.

End FullCanvasView.

(** ** The undo history of the drawing editor ([DrawingCanvas]) *)

Module DrawingCanvas.

Section History.

(** The pixels of the canvas, as [ctx.getImageData] returns them. *)
Variable ImageData : Type.

(** What [ctx.fillRect] with the white fill style makes of the pixels
    (the brush may have left a [globalAlpha] below one). *)
Variable fillWhite : ImageData -> ImageData.

(** [pixels] is [None] when the canvas or its 2d context is missing. *)
Record CanvasState : Type := mkCanvas {
  pixels : option ImageData;
  undoStack : list ImageData;
  redoStack : list ImageData;
  isDrawing : bool;
  selectedColor : string;
  recentColors : list string
}.

(** [saveToUndoStack] *)
Definition saveToUndoStack (st : CanvasState) : CanvasState :=
  match pixels st with
  | None => st
  | Some imageData =>
      mkCanvas (pixels st) (undoStack st ++ [imageData]) []
        (isDrawing st) (selectedColor st) (recentColors st)
  end.

(** [handleUndo]: [r] is the render the handler closes over, which
    gives [undoStack]; the redo stack is extended by a functional
    update of the latest state [st]. *)
Definition handleUndo (r st : CanvasState) : CanvasState :=
  if (length (undoStack r) <=? 1)%nat then st
  else
    match pixels st with
    | None => st
    | Some currentState =>
        let newUndoStack := removelast (undoStack r) in
        match last (undoStack r) with
        | None => st
        | Some _ =>
            mkCanvas
              (match last newUndoStack with
               | Some previousState => Some previousState
               | None => pixels st
               end)
              newUndoStack
              (redoStack st ++ [currentState])
              (isDrawing st) (selectedColor st) (recentColors st)
        end
    end.

(** [handleRedo] *)
Definition handleRedo (r st : CanvasState) : CanvasState :=
  if (length (redoStack r) =? 0)%nat then st
  else
    match pixels st with
    | None => st
    | Some currentState =>
        let newRedoStack := removelast (redoStack r) in
        match last (redoStack r) with
        | None => st
        | Some stateToRestore =>
            mkCanvas (Some stateToRestore)
              (undoStack st ++ [currentState])
              newRedoStack
              (isDrawing st) (selectedColor st) (recentColors st)
        end
    end.

(** [stopDrawing]: the end of a stroke saves the canvas. *)
Definition stopDrawing (st : CanvasState) : CanvasState :=
  if isDrawing st then
    saveToUndoStack
      (mkCanvas (pixels st) (undoStack st) (redoStack st) false
         (selectedColor st) (recentColors st))
  else st.

(** [clearCanvas]: the state is saved first, then the canvas is filled. *)
Definition clearCanvas (st : CanvasState) : CanvasState :=
  match pixels st with
  | None => st
  | Some current =>
      let st1 := saveToUndoStack st in
      mkCanvas (Some (fillWhite current)) (undoStack st1) (redoStack st1)
        (isDrawing st1) (selectedColor st1) (recentColors st1)
  end.

(** [updateSelectedColor]: [parsed] is the hexadecimal form computed by
    the colour library, [None] when the colour is not valid;
    [recentColors.includes] reads the render [r], the list is extended
    by a functional update of [st]. *)
Definition updateSelectedColor (r : CanvasState) (parsed : option string)
    (st : CanvasState) : CanvasState :=
  match parsed with
  | None => st
  | Some hexColor =>
      mkCanvas (pixels st) (undoStack st) (redoStack st) (isDrawing st)
        hexColor
        (if existsb (String.eqb hexColor) (recentColors r)
         then recentColors st
         else hexColor :: take 9 (recentColors st))
  end.

End History.

End DrawingCanvas.

(** ** The signed-in user ([onAuthStateChanged] in [App]) *)

Module AuthListener.

(** The fields of the Firebase user that the listener reads. *)
Record AuthUser : Type := mkAuthUser {
  au_uid : string;
  au_email : option string;
  au_displayName : option string
}.

(** [s.split('@')[0]]: the part of [s] before its first [@]. *)
Fixpoint beforeAt (s : string) : string :=
  match s with
  | EmptyString => EmptyString
  | String c rest =>
      if Ascii.eqb c "@"%char then EmptyString else String c (beforeAt rest)
  end.

(** [a || b] on strings that may be missing: the first one that is
    neither missing nor empty. *)
Definition orString (a : option string) (b : option string) : option string :=
  match a with
  | Some s => if String.eqb s "" then b else Some s
  | None => b
  end.

(** The [userInfo] object built by the listener. *)
Definition userInfo (authUser : AuthUser) : User :=
  {| uid := au_uid authUser;
     email := orString (au_email authUser) (Some "");
     displayName :=
       orString (au_displayName authUser)
         (orString (beforeAt <$> au_email authUser) (Some "Usuário")) |}.

(** The listener: [setUser(userInfo)] or [setUser(null)]. *)
Definition onAuthStateChanged (authUser : option AuthUser) (st : App.AppState)
    : App.AppState :=
  App.setUser (userInfo <$> authUser) st.

End AuthListener.

(** ** The grid size effect of [App] *)

Module AppLayout.

Record GridDimensions : Type := mkGridDimensions {
  gd_width : Z;
  gd_height : Z;
  gd_squareSize : Z;
  gd_visibleCols : Z;
  gd_visibleRows : Z
}.

(** [updateGridSize] of the resize effect, for a window of
    [innerWidth] by [innerHeight] pixels; no divisor can be zero. *)
Definition updateGridSize (innerWidth innerHeight : Z) : GridDimensions :=
  let headerHeight := 52 in
  let availableWidth := innerWidth - 10 in
  let availableHeight := innerHeight - headerHeight - 10 in
  let optimizedSquareSize :=
    Z.max GridGeometry.SQUARE_MIN_SIZE
      (Z.min (Z.min (availableWidth / GRID_SIZE) (availableHeight / GRID_SIZE))
             GridGeometry.SQUARE_MAX_SIZE) in
  let visibleCols := availableWidth / optimizedSquareSize in
  let visibleRows := availableHeight / optimizedSquareSize in
  let effectiveCols := Z.min visibleCols GRID_SIZE in
  let effectiveRows := Z.min visibleRows GRID_SIZE in
  let width := effectiveCols * optimizedSquareSize in
  let height := effectiveRows * optimizedSquareSize in
  {| gd_width := width; gd_height := height;
     gd_squareSize := optimizedSquareSize;
     gd_visibleCols := effectiveCols; gd_visibleRows := effectiveRows |}.

End AppLayout.

(** ** The payment endpoint ([functions/index.js]) *)

Module Functions.

(** What is passed to [stripe.paymentIntents.create]. *)
Record IntentRequest : Type := mkIntentRequest {
  ir_amount : Z;
  ir_currency : string;
  ir_userId : option string
}.

Inductive HttpBody : Type :=
  | ErrorBody (message : string)
  | ClientSecret (secret : string).

Record HttpResponse : Type := mkResponse {
  status : Z;
  body : HttpBody
}.

(** The request as the handler reads it: the method and the [amount]
    field of the body, a number or missing. *)
Record HttpRequest : Type := mkRequest {
  method : string;
  amount : option Z
}.

Section Stripe.

(** The Stripe client: the client secret of the intent it creates, or
    [None] when it throws. *)
Variable createIntent : IntentRequest -> option string.

(** [createPaymentIntentHttp]: the response, and the requests made to
    Stripe. *)
Definition createPaymentIntentHttp (req : HttpRequest)
    : HttpResponse * list IntentRequest :=
  if negb (String.eqb (method req) "POST") then
    (mkResponse 405 (ErrorBody "Method Not Allowed"), [])
  else
    match amount req with
    | None => (mkResponse 400 (ErrorBody "Amount is required"), [])
    | Some a =>
        if a =? 0 then (mkResponse 400 (ErrorBody "Amount is required"), [])
        else
          let intent := mkIntentRequest a "eur" None in
          match createIntent intent with
          | Some secret => (mkResponse 200 (ClientSecret secret), [intent])
          | None =>
              (mkResponse 500 (ErrorBody "Unable to create payment intent"),
               [intent])
          end
    end.

End Stripe.

End Functions.

(** ** Views of the handlers used in the proofs *)

(** The square that [applySnapshotDoc] puts in place of [s] for the
    document data [data]. *)
Definition withDoc (s : Square) (data : DocData) : Square :=
  {| sq_id := sq_id s;
     owner := d_owner data;
     price := price s;
     color := or_else (d_color data) (Some "#ffffff");
     imageData := or_else (d_imageData data) None;
     priceHistory := priceHistory s |}.

(** The bounds test of [applySnapshotDoc] on the full grid. *)
Definition docInRange (d : QueryDoc) : bool :=
  (0 <=? doc_id d) && (doc_id d <? GRID_SIZE * GRID_SIZE).

(** The states a session can reach: from the initial state, through
    snapshots, changes of the signed-in user, clicks, purchases and
    saves. A handler may run from any render produced so far ([r]),
    not only from the latest. *)
Inductive reachable : App.AppState -> Prop :=
  | reach_initial :
      reachable App.initialState
  | reach_snapshot docs st :
      reachable st -> reachable (App.onSquaresSnapshot docs st)
  | reach_auth u st :
      reachable st -> reachable (App.setUser u st)
  | reach_click r k st :
      reachable r -> reachable st -> reachable (App.handleSquareClick r k st)
  | reach_purchase r nl ns ok st :
      reachable r -> reachable st ->
      reachable (fst (App.finalizeSquarePurchase r nl ns ok st))
  | reach_save r img ok st :
      reachable r -> reachable st ->
      reachable (fst (App.handleSaveDrawing r img ok st)).

(** The invariant of the grid of a reachable state. *)
Definition ledgerSquare (i : nat) (s : Square) : Prop :=
  sq_id s = Z.of_nat i
  /\ (exists n : nat, price s = 2 ^ Z.of_nat n)
  /\ (owner s = JNull -> price s = 1 /\ priceHistory s = [])
  /\ Forall (fun e => truthy (ph_owner e) = true
                      /\ exists n : nat, ph_price e = 2 ^ Z.of_nat n)
            (priceHistory s).

Definition ledgerGrid (l : list Square) : Prop :=
  length l = Z.to_nat (GRID_SIZE * GRID_SIZE)
  /\ forall (i : nat) (s : Square), l !! i = Some s -> ledgerSquare i s.

Import App.
Import Scenario.

(** ** Facts about the grid utilities *)

Lemma initializeGrid_length :
  length initializeGrid = Z.to_nat (GRID_SIZE * GRID_SIZE).
Proof.
  unfold initializeGrid. rewrite length_fmap. apply length_seqZ.
Qed.

Lemma initializeGrid_lookup (i : Z) :
  0 <= i < GRID_SIZE * GRID_SIZE ->
  initializeGrid !! Z.to_nat i = Some (defaultSquare i).
Proof.
  intros Hi. unfold initializeGrid.
  rewrite list_lookup_fmap.
  rewrite (lookup_seqZ_lt 0 (GRID_SIZE * GRID_SIZE) (Z.to_nat i)) by lia.
  simpl. f_equal. f_equal. lia.
Qed.

Lemma isValidSquareId_spec (id : Z) :
  isValidSquareId id = true <-> 0 <= id < GRID_SIZE * GRID_SIZE.
Proof.
  unfold isValidSquareId. rewrite andb_true_iff, Z.leb_le, Z.ltb_lt. tauto.
Qed.

(** For a non-negative id the truncating [%] and the flooring division
    agree, so the position maps back to the id. *)
Lemma calculateSquareId_of_position (id : Z) :
  0 <= id ->
  calculateSquareId (pos_x (calculateSquarePosition id))
                    (pos_y (calculateSquarePosition id)) = id.
Proof.
  intros Hid. unfold calculateSquareId, calculateSquarePosition, GRID_SIZE. simpl.
  rewrite Z.rem_mod_nonneg by lia.
  pose proof (Z.div_mod id 120 ltac:(lia)). lia.
Qed.

(** C9, the claim as stated fails: neither function checks bounds or has
    a failure result. [calculateSquareId(GRID_SIZE, 0)] returns 120, the
    id of column 0 of row 1, and [calculateSquarePosition(-1)] returns
    the position (-1, -1). *)
Lemma C9_out_of_bounds_returns_a_value :
  calculateSquareId GRID_SIZE 0 = 120
  /\ calculateSquareId GRID_SIZE 0 = calculateSquareId 0 1
  /\ calculateSquarePosition (-1) = {| pos_x := -1; pos_y := -1 |}
  /\ isValidSquareId (-1) = false.
Proof. repeat split; reflexivity. Qed.

(** C9, amended: [calculateSquareId] and [calculateSquarePosition] are
    total and check nothing; on a column and a row inside the grid the id
    is [row * GRID_SIZE + column], it is accepted by the separate bounds
    test [isValidSquareId], and the position computed from it is the
    column and the row again, which in turn give the id back. *)
Theorem C9_id_and_position_inverse_in_bounds (x y : Z) :
  0 <= x < GRID_SIZE ->
  0 <= y < GRID_SIZE ->
  calculateSquareId x y = y * GRID_SIZE + x
  /\ isValidSquareId (calculateSquareId x y) = true
  /\ calculateSquarePosition (calculateSquareId x y) = {| pos_x := x; pos_y := y |}
  /\ calculateSquareId (pos_x (calculateSquarePosition (calculateSquareId x y)))
                       (pos_y (calculateSquarePosition (calculateSquareId x y)))
     = calculateSquareId x y.
Proof.
  intros Hx Hy.
  assert (Hid : 0 <= calculateSquareId x y < GRID_SIZE * GRID_SIZE).
  { unfold calculateSquareId, GRID_SIZE in *. nia. }
  split; [reflexivity|].
  split; [apply isValidSquareId_spec; exact Hid|].
  split.
  - unfold calculateSquarePosition, calculateSquareId, GRID_SIZE in *.
    f_equal.
    + rewrite Z.rem_mod_nonneg by lia.
      rewrite Z.add_comm, Z.mod_add by lia. apply Z.mod_small; lia.
    + rewrite Z.add_comm, Z.div_add by lia.
      rewrite Z.div_small by lia. lia.
  - apply calculateSquareId_of_position. lia.
Qed.

Lemma C9_id_and_position_inverse_witness :
  calculateSquarePosition (calculateSquareId 7 3) = {| pos_x := 7; pos_y := 3 |}.
Proof.
  apply (C9_id_and_position_inverse_in_bounds 7 3); unfold GRID_SIZE; lia.
Defined.

(** ** The purchase handler *)

Lemma lookup_map {A B : Type} (f : A -> B) (l : list A) (i : nat) :
  map f l !! i = f <$> (l !! i).
Proof. exact (list_lookup_fmap f l i). Qed.

Lemma purchaseUpdate_other k b isOwned p now s :
  sq_id s <> k -> purchaseUpdate k b isOwned p now s = s.
Proof.
  intros Hne. unfold purchaseUpdate.
  destruct (sq_id s =? k) eqn:E; [apply Z.eqb_eq in E; contradiction | reflexivity].
Qed.

Lemma purchaseUpdate_id k b isOwned p now s :
  sq_id (purchaseUpdate k b isOwned p now s) = sq_id s.
Proof. unfold purchaseUpdate. destruct (sq_id s =? k); reflexivity. Qed.

(** The purchase commits whenever the selected id is truthy, a user is
    signed in and the id is found in the handler's snapshot. *)
Lemma finalizeSquarePurchase_commits r nl ns ok st k u q :
  selectedSquare r = Some k ->
  k <> 0 ->
  user r = Some u ->
  findSquare (squares r) k = Some q ->
  squares (fst (finalizeSquarePurchase r nl ns ok st))
  = map (purchaseUpdate k (uid u) (not_null (owner q)) (quotedPrice q) nl)
        (squares st).
Proof.
  intros Hsel Hk Hu Hq. unfold finalizeSquarePurchase.
  rewrite Hsel, Hu, Hq.
  destruct (k =? 0) eqn:E; [apply Z.eqb_eq in E; contradiction |].
  destruct ok; reflexivity.
Qed.

Lemma finalizeSquarePurchase_writes r nl ns st k u q :
  selectedSquare r = Some k ->
  k <> 0 ->
  user r = Some u ->
  findSquare (squares r) k = Some q ->
  snd (finalizeSquarePurchase r nl ns true st) = [ (k, purchaseWrite (uid u) q ns) ].
Proof.
  intros Hsel Hk Hu Hq. unfold finalizeSquarePurchase.
  rewrite Hsel, Hu, Hq.
  destruct (k =? 0) eqn:E; [apply Z.eqb_eq in E; contradiction | reflexivity].
Qed.

(** Whatever happens, the new grid is the old one or the old one mapped
    through [purchaseUpdate] at the selected id. *)
Lemma finalizeSquarePurchase_grid r nl ns ok st :
  squares (fst (finalizeSquarePurchase r nl ns ok st)) = squares st
  \/ exists k b isOwned p,
       selectedSquare r = Some k
       /\ squares (fst (finalizeSquarePurchase r nl ns ok st))
          = map (purchaseUpdate k b isOwned p nl) (squares st).
Proof.
  unfold finalizeSquarePurchase.
  destruct (selectedSquare r) as [k|]; [| left; reflexivity].
  destruct (user r) as [u|]; [| left; reflexivity].
  destruct (k =? 0); [left; reflexivity |].
  destruct (findSquare (squares r) k) as [q|]; [| left; reflexivity].
  right. exists k, (uid u), (not_null (owner q)), (quotedPrice q).
  split; [reflexivity |]. destruct ok; reflexivity.
Qed.

(** C10: a purchase of the square with id [k] leaves every square whose
    id is not [k] exactly as it was in the latest grid (same owner,
    price, color, imageData and priceHistory, at the same position). *)
Theorem C10_purchase_leaves_other_squares_unchanged
    r nl ns ok st (k : Z) (i : nat) (s : Square) :
  selectedSquare r = Some k ->
  squares st !! i = Some s ->
  sq_id s <> k ->
  squares (fst (finalizeSquarePurchase r nl ns ok st)) !! i = Some s.
Proof.
  intros Hsel Hs Hne.
  destruct (finalizeSquarePurchase_grid r nl ns ok st)
    as [-> | (k' & b & o & p & Hsel' & ->)]; [exact Hs |].
  rewrite Hsel in Hsel'. injection Hsel' as <-.
  rewrite lookup_map, Hs. simpl.
  f_equal. apply purchaseUpdate_other. exact Hne.
Qed.


Lemma C10_purchase_leaves_other_squares_unchanged_witness :
  let r := handleSquareClick bobReady 7 bobReady in
  selectedSquare r = Some 7
  /\ squares r !! 8%nat = Some (defaultSquare 8)
  /\ sq_id (defaultSquare 8) <> 7
  /\ squares (fst (finalizeSquarePurchase r 2000 2001 true r)) !! 8%nat
     = Some (defaultSquare 8).
Proof.
  assert (H1 : selectedSquare (handleSquareClick bobReady 7 bobReady) = Some 7)
    by (vm_compute; reflexivity).
  assert (H2 : squares (handleSquareClick bobReady 7 bobReady) !! 8%nat
               = Some (defaultSquare 8)) by (vm_compute; reflexivity).
  assert (H3 : sq_id (defaultSquare 8) <> 7) by (simpl; lia).
  split; [exact H1 |]. split; [exact H2 |]. split; [exact H3 |].
  exact (C10_purchase_leaves_other_squares_unchanged
           (handleSquareClick bobReady 7 bobReady) 2000 2001 true
           (handleSquareClick bobReady 7 bobReady) 7 8%nat (defaultSquare 8)
           H1 H2 H3).
Defined.

(** ** Stale quotes *)

(** C1, the claim as stated fails. Bob clicks the unowned square 7 and is
    quoted 1; before his payment completes, a snapshot arrives in which
    Alice owns square 7 and has drawn on it. The purchase handler of the
    earlier render then runs: it neither compares the latest square with
    the quoted one nor fails; it overwrites Alice's ownership at the
    stale price and writes the same to the store. *)
Lemma C1_stale_quote_is_committed :
  let r := handleSquareClick bobReady 7 bobReady in
  let st := onSquaresSnapshot [mkQueryDoc 7 docAliceDrew] r in
  let out := finalizeSquarePurchase r 2000 2001 true st in
  (owner <$> findSquare (squares r) 7) = Some JNull
  /\ (owner <$> findSquare (squares st) 7) = Some (JStr "alice")
  /\ squares (fst out) <> squares st
  /\ squares (fst out) !! 7%nat
     = Some {| sq_id := 7; owner := JStr "bob"; price := 1;
               color := Some "#ffffff"; imageData := None;
               priceHistory := [] |}
  /\ (w_owner <$> (snd <$> head (snd out))) = Some (Some (JStr "bob")).
Proof.
  cbv zeta.
  split; [vm_compute; reflexivity |].
  split; [vm_compute; reflexivity |].
  split.
  - intros Heq.
    assert (H7 : squares (fst (finalizeSquarePurchase
                   (handleSquareClick bobReady 7 bobReady) 2000 2001 true
                   (onSquaresSnapshot [mkQueryDoc 7 docAliceDrew]
                      (handleSquareClick bobReady 7 bobReady)))) !! 7%nat
                 = squares (onSquaresSnapshot [mkQueryDoc 7 docAliceDrew]
                      (handleSquareClick bobReady 7 bobReady)) !! 7%nat)
      by (rewrite Heq; reflexivity).
    vm_compute in H7. discriminate H7.
  - split; vm_compute; reflexivity.
Qed.

(** C1, amended: [finalizeSquarePurchase] has no stale-quote check and no
    [Conflict] outcome. Whenever the selected id is non-zero, a user is
    signed in and the id is found in the snapshot the handler closes
    over, it commits: every square with that id in the latest grid gets
    the buyer as owner and the price quoted from the snapshot, whatever
    owner and price it has in the latest grid, and, when the store
    accepts the write, the document written is the one computed from the
    snapshot. *)
Theorem C1_commit_uses_the_snapshot_quote
    r nl ns ok st (k : Z) (u : User) (q : Square) (i : nat) (s : Square) :
  selectedSquare r = Some k ->
  k <> 0 ->
  user r = Some u ->
  findSquare (squares r) k = Some q ->
  squares st !! i = Some s ->
  sq_id s = k ->
  (exists s',
      squares (fst (finalizeSquarePurchase r nl ns ok st)) !! i = Some s'
      /\ owner s' = JStr (uid u)
      /\ price s' = quotedPrice q)
  /\ (ok = true ->
      snd (finalizeSquarePurchase r nl ns ok st)
      = [ (k, purchaseWrite (uid u) q ns) ]).
Proof.
  intros Hsel Hk Hu Hq Hs Hid. split.
  - rewrite (finalizeSquarePurchase_commits r nl ns ok st k u q) by assumption.
    rewrite lookup_map, Hs. simpl. eexists. split; [reflexivity |].
    unfold purchaseUpdate. rewrite Hid, Z.eqb_refl. simpl. split; reflexivity.
  - intros ->. apply finalizeSquarePurchase_writes; assumption.
Qed.

Lemma C1_commit_uses_the_snapshot_quote_witness :
  let r := handleSquareClick bobReady 7 bobReady in
  let st := onSquaresSnapshot [mkQueryDoc 7 docAliceDrew] r in
  exists s',
    squares (fst (finalizeSquarePurchase r 2000 2001 true st)) !! 7%nat = Some s'
    /\ owner s' = JStr "bob"
    /\ price s' = 1.
Proof.
  cbv zeta.
  refine (proj1 (C1_commit_uses_the_snapshot_quote
            (handleSquareClick bobReady 7 bobReady) 2000 2001 true
            (onSquaresSnapshot [mkQueryDoc 7 docAliceDrew]
               (handleSquareClick bobReady 7 bobReady))
            7 bob (defaultSquare 7) 7%nat
            {| sq_id := 7; owner := JStr "alice"; price := 1;
               color := Some "#ffffff"; imageData := Some drawing;
               priceHistory := [] |}
            _ _ _ _ _ _)).
  - vm_compute; reflexivity.
  - lia.
  - vm_compute; reflexivity.
  - vm_compute; reflexivity.
  - vm_compute; reflexivity.
  - reflexivity.
Defined.

(** ** The quote, the amount shown and the commit *)

Lemma quotedPrice_unowned (q : Square) :
  owner q = JNull -> quotedPrice q = price q.
Proof. intros H. unfold quotedPrice. rewrite H. reflexivity. Qed.

Lemma quotedPrice_owned (q : Square) (o : string) :
  owner q = JStr o -> quotedPrice q = price q * 2.
Proof. intros H. unfold quotedPrice. rewrite H. reflexivity. Qed.

(** The payment modal prints the price of the selected square as it
    stands, owned or not. *)
Lemma paymentModalAmount_is_current_price r (k : Z) (q : Square) :
  selectedSquare r = Some k ->
  k <> 0 ->
  findSquare (squares r) k = Some q ->
  price q <> 0 ->
  paymentModalAmount r = price q.
Proof.
  intros Hsel Hk Hq Hp. unfold paymentModalAmount. rewrite Hsel, Hq.
  destruct (k =? 0) eqn:E; [apply Z.eqb_eq in E; contradiction |].
  destruct (price q =? 0) eqn:E'; [apply Z.eqb_eq in E'; contradiction |].
  reflexivity.
Qed.

(** Hence, for an owned square, the amount printed is half the quote. *)
Lemma paymentModalAmount_half_of_owned_quote r (k : Z) (q : Square) (o : string) :
  selectedSquare r = Some k ->
  k <> 0 ->
  findSquare (squares r) k = Some q ->
  price q <> 0 ->
  owner q = JStr o ->
  quotedPrice q = 2 * paymentModalAmount r
  /\ paymentModalAmount r <> quotedPrice q.
Proof.
  intros Hsel Hk Hq Hp Ho.
  rewrite (paymentModalAmount_is_current_price r k q) by assumption.
  rewrite (quotedPrice_owned q o Ho). lia.
Qed.

(** [!selectedSquare] is true for the id 0: nothing is committed. *)
Lemma finalizeSquarePurchase_id_zero r nl ns ok st :
  selectedSquare r = Some 0 ->
  finalizeSquarePurchase r nl ns ok st = (st, []).
Proof.
  intros H. unfold finalizeSquarePurchase. rewrite H.
  destruct (user r); reflexivity.
Qed.

(** C2, the code at the failing input. Square 7 belongs to Alice, who
    has not drawn yet, and costs 1. Bob clicks it: the payment modal
    opens at once and prints the amount 1, the undoubled price, while the
    commit that follows charges the doubled quote 2 (the price the view
    modal and the Stripe button use). For square 0 the modal prints 0 and
    the purchase handler returns without committing, because
    [!selectedSquare] holds for the id 0. *)
Theorem C2_amount_shown_is_not_the_quote :
  let st := onSquaresSnapshot [mkQueryDoc 7 docAliceBought] bobReady in
  let r := handleSquareClick st 7 st in
  let r0 := handleSquareClick bobReady 0 bobReady in
  findSquare (squares r) 7
  = Some {| sq_id := 7; owner := JStr "alice"; price := 1;
            color := Some "#ffffff"; imageData := None; priceHistory := [] |}
  /\ paymentModalOpen r = true
  /\ paymentModalAmount r = 1
  /\ (quotedPrice <$> findSquare (squares r) 7) = Some 2
  /\ (viewModalBuyPrice <$> findSquare (squares r) 7) = Some 2
  /\ (price <$> squares (fst (finalizeSquarePurchase r 2000 2001 true r)) !! 7%nat)
     = Some 2
  /\ paymentModalOpen r0 = true
  /\ paymentModalAmount r0 = 0
  /\ finalizeSquarePurchase r0 2000 2001 true r0 = (r0, []).
Proof.
  cbv zeta. repeat apply conj;
    try (apply finalizeSquarePurchase_id_zero); vm_compute; reflexivity.
Qed.

(** ** Artwork across a purchase *)

(** C3, the claim as stated fails on the unowned branch. The stored
    document of square 7 has a [null] owner and carries artwork and a
    fill color; Bob buys the square: the commit replaces the artwork by
    [null] and the color by white, in the grid and in the document
    written. The same happens to Alice's drawing when the purchase was
    quoted while the square was still unowned ([stale], [latest]). *)
Lemma C3_unowned_branch_resets_artwork :
  let st := onSquaresSnapshot [mkQueryDoc 7 docUnownedDrawing] bobReady in
  let r := handleSquareClick st 7 st in
  let out := finalizeSquarePurchase r 2000 2001 true r in
  let stale := handleSquareClick bobReady 7 bobReady in
  let latest := onSquaresSnapshot [mkQueryDoc 7 docAliceDrew] stale in
  squares r !! 7%nat
  = Some {| sq_id := 7; owner := JNull; price := 1;
            color := Some "#ff0000"; imageData := Some drawing;
            priceHistory := [] |}
  /\ squares (fst out) !! 7%nat
     = Some {| sq_id := 7; owner := JStr "bob"; price := 1;
               color := Some "#ffffff"; imageData := None;
               priceHistory := [] |}
  /\ snd out
     = [ (7, {| w_owner := Some (JStr "bob"); w_price := Some 1;
                w_priceHistory := Some [];
                w_imageData := Some None;
                w_color := Some (Some "#ffffff");
                w_updatedAt := Some 2001 |}) ]
  /\ (imageData <$> squares latest !! 7%nat) = Some (Some drawing)
  /\ (imageData <$>
        squares (fst (finalizeSquarePurchase stale 2000 2001 true latest)) !! 7%nat)
     = Some None.
Proof.
  cbv zeta. repeat apply conj; vm_compute; reflexivity.
Qed.

(** C3, amended: when the square found in the handler's snapshot has an
    owner (the already-owned branch), a purchase commit leaves imageData
    and color of every square of the latest grid exactly as they were,
    and the document written carries neither field, so the stored
    artwork is kept by the merge; when the snapshot square has no owner
    (the unowned branch), the purchased square gets imageData [null] and
    color ["#ffffff"], the values of a square in its default state. *)
Theorem C3_artwork_kept_on_owned_branch_reset_on_unowned
    r nl ns ok st (k : Z) (u : User) (q : Square) (i : nat) (s : Square) :
  selectedSquare r = Some k ->
  k <> 0 ->
  user r = Some u ->
  findSquare (squares r) k = Some q ->
  squares st !! i = Some s ->
  exists s',
    squares (fst (finalizeSquarePurchase r nl ns ok st)) !! i = Some s'
    /\ (not_null (owner q) = true ->
        imageData s' = imageData s /\ color s' = color s
        /\ w_imageData (purchaseWrite (uid u) q ns) = None
        /\ w_color (purchaseWrite (uid u) q ns) = None)
    /\ (not_null (owner q) = false ->
        sq_id s = k ->
        imageData s' = None /\ color s' = Some "#ffffff").
Proof.
  intros Hsel Hk Hu Hq Hs.
  rewrite (finalizeSquarePurchase_commits r nl ns ok st k u q) by assumption.
  rewrite lookup_map, Hs. simpl. eexists. split; [reflexivity |].
  unfold purchaseUpdate, purchaseWrite. split.
  - intros ->. destruct (sq_id s =? k); simpl; repeat split; reflexivity.
  - intros -> ->. rewrite Z.eqb_refl. simpl. split; reflexivity.
Qed.

Lemma C3_artwork_kept_on_owned_branch_witness :
  let st := onSquaresSnapshot [mkQueryDoc 7 docAliceDrew] bobReady in
  let r := handleSquareClick st 7 st in
  exists s',
    squares (fst (finalizeSquarePurchase r 2000 2001 true r)) !! 7%nat = Some s'
    /\ imageData s' = Some drawing
    /\ color s' = Some "#ffffff".
Proof.
  cbv zeta.
  destruct (C3_artwork_kept_on_owned_branch_reset_on_unowned
              (handleSquareClick
                 (onSquaresSnapshot [mkQueryDoc 7 docAliceDrew] bobReady) 7
                 (onSquaresSnapshot [mkQueryDoc 7 docAliceDrew] bobReady))
              2000 2001 true
              (handleSquareClick
                 (onSquaresSnapshot [mkQueryDoc 7 docAliceDrew] bobReady) 7
                 (onSquaresSnapshot [mkQueryDoc 7 docAliceDrew] bobReady))
              7 bob
              {| sq_id := 7; owner := JStr "alice"; price := 1;
                 color := Some "#ffffff"; imageData := Some drawing;
                 priceHistory := [] |}
              7%nat
              {| sq_id := 7; owner := JStr "alice"; price := 1;
                 color := Some "#ffffff"; imageData := Some drawing;
                 priceHistory := [] |}
              ltac:(vm_compute; reflexivity) ltac:(lia)
              ltac:(vm_compute; reflexivity) ltac:(vm_compute; reflexivity)
              ltac:(vm_compute; reflexivity))
    as (s' & Hs' & Howned & _).
  exists s'. split; [exact Hs' |].
  destruct (Howned eq_refl) as (Hi & Hc & _).
  split; [exact Hi | exact Hc].
Defined.

(** ** The owner's own square *)

(** C4, the claim as stated fails: the purchase handler compares the
    buyer with nobody. Bob has the payment modal of the unowned square 7
    open when a snapshot shows that he already owns it (bought from
    another session); completing the payment commits a purchase of his
    own square: the price doubles and a history entry naming Bob as the
    previous owner is appended. *)
Lemma C4_purchase_by_the_owner_is_committed :
  let r0 := handleSquareClick bobReady 7 bobReady in
  let st := onSquaresSnapshot [mkQueryDoc 7 docBobBought] r0 in
  let out := finalizeSquarePurchase st 2000 2001 true st in
  paymentModalOpen st = true
  /\ (uid <$> user st) = Some "bob"
  /\ squares st !! 7%nat
     = Some {| sq_id := 7; owner := JStr "bob"; price := 1;
               color := Some "#ffffff"; imageData := None; priceHistory := [] |}
  /\ squares (fst out) !! 7%nat
     = Some {| sq_id := 7; owner := JStr "bob"; price := 2;
               color := Some "#ffffff"; imageData := None;
               priceHistory :=
                 [ {| ph_owner := JStr "bob"; ph_price := 1;
                      ph_timestamp := 2000 |} ] |}
  /\ (w_price <$> (snd <$> head (snd out))) = Some (Some 2).
Proof.
  cbv zeta. repeat apply conj; vm_compute; reflexivity.
Qed.

(** C4, amended: the rejection of a self-purchase lives in the click
    handler, not in the purchase handler, and there is no [AlreadyOwner]
    outcome. When the signed-in user is the owner of the clicked square,
    [handleSquareClick] opens the drawing editor on that square and does
    not open the payment or the view modal; the grid (owner, price,
    artwork and priceHistory of every square) is left untouched. *)
Theorem C4_owner_click_opens_editor_not_payment
    r st (k : Z) (u : User) (q : Square) :
  user r = Some u ->
  findSquare (squares r) k = Some q ->
  owner q = JStr (uid u) ->
  squares (handleSquareClick r k st) = squares st
  /\ paymentModalOpen (handleSquareClick r k st) = paymentModalOpen st
  /\ viewSquareModalOpen (handleSquareClick r k st) = viewSquareModalOpen st
  /\ drawingCanvasOpen (handleSquareClick r k st) = true
  /\ isEditing (handleSquareClick r k st) = true
  /\ currentSquare (handleSquareClick r k st) = Some q
  /\ selectedSquare (handleSquareClick r k st) = Some k.
Proof.
  intros Hu Hq Ho. unfold handleSquareClick.
  rewrite Hq, Hu. unfold strict_eq_str. rewrite Ho, String.eqb_refl.
  repeat apply conj; reflexivity.
Qed.

Lemma C4_owner_click_opens_editor_witness :
  let st := setUser (Some alice)
              (onSquaresSnapshot [mkQueryDoc 7 docAliceDrew] initialState) in
  paymentModalOpen (handleSquareClick st 7 st) = paymentModalOpen st
  /\ drawingCanvasOpen (handleSquareClick st 7 st) = true.
Proof.
  cbv zeta.
  pose proof (C4_owner_click_opens_editor_not_payment
                (setUser (Some alice)
                   (onSquaresSnapshot [mkQueryDoc 7 docAliceDrew] initialState))
                (setUser (Some alice)
                   (onSquaresSnapshot [mkQueryDoc 7 docAliceDrew] initialState))
                7 alice
                {| sq_id := 7; owner := JStr "alice"; price := 1;
                   color := Some "#ffffff"; imageData := Some drawing;
                   priceHistory := [] |}
                ltac:(vm_compute; reflexivity) ltac:(vm_compute; reflexivity)
                ltac:(reflexivity)) as (_ & Hp & _ & Hd & _).
  split; [exact Hp | exact Hd].
Defined.

(** The handler never touches the grid, whoever clicks. *)
Lemma handleSquareClick_squares r k st :
  squares (handleSquareClick r k st) = squares st.
Proof.
  unfold handleSquareClick.
  destruct (findSquare (squares r) k) as [q|]; [| reflexivity].
  destruct (user r) as [u|]; [| reflexivity].
  destruct (strict_eq_str (owner q) (uid u)); [reflexivity |].
  destruct (not_null (owner q) && hasDrawing q); reflexivity.
Qed.

(** The editor is opened by a click only for the owner of the square,
    as the handler's snapshot shows it. *)
Lemma handleSquareClick_opens_editor_for_owner_only r k st :
  drawingCanvasOpen st = false ->
  drawingCanvasOpen (handleSquareClick r k st) = true ->
  exists u q,
    user r = Some u /\ findSquare (squares r) k = Some q
    /\ owner q = JStr (uid u).
Proof.
  intros Hclosed. unfold handleSquareClick.
  destruct (findSquare (squares r) k) as [q|]; simpl; [| congruence].
  destruct (user r) as [u|]; simpl; [| congruence].
  destruct (strict_eq_str (owner q) (uid u)) eqn:E.
  - intros _. exists u, q. repeat split.
    unfold strict_eq_str in E. destruct (owner q); try discriminate.
    apply String.eqb_eq in E. congruence.
  - destruct (not_null (owner q) && hasDrawing q); simpl; congruence.
Qed.

(** ** Saving a drawing *)

Lemma handleSaveDrawing_grid r img ok st cs u :
  currentSquare r = Some cs ->
  user r = Some u ->
  squares (fst (handleSaveDrawing r img ok st))
  = map (saveUpdate (sq_id cs) img) (squares st).
Proof.
  intros Hc Hu. unfold handleSaveDrawing. rewrite Hc, Hu.
  destruct ok; reflexivity.
Qed.

(** C6, the claim as stated fails: the save handler has no owner check.
    Alice opens the editor on her square 7; a snapshot then shows that
    Bob has bought it, but the square held by the editor is the one of
    her click, so the canvas still takes her input; she saves: the
    artwork of Bob's square is replaced in the grid, and the document
    written names Alice as owner again. *)
Lemma C6_save_by_a_former_owner_is_applied :
  let st0 := setUser (Some alice)
               (onSquaresSnapshot [mkQueryDoc 7 docAliceDrew] initialState) in
  let r0 := handleSquareClick st0 7 st0 in
  let st := onSquaresSnapshot
              [mkQueryDoc 7 (mergeDoc (purchaseWrite "bob"
                                         {| sq_id := 7; owner := JStr "alice";
                                            price := 1; color := Some "#ffffff";
                                            imageData := Some drawing;
                                            priceHistory := [] |} 3000)
                                      docAliceDrew)] r0 in
  let out := handleSaveDrawing st "data:image/jpeg;base64,NEW" true st in
  (uid <$> user st) = Some "alice"
  /\ canvasIsOwner st = true
  /\ (owner <$> squares st !! 7%nat) = Some (JStr "bob")
  /\ (imageData <$> squares st !! 7%nat) = Some (Some drawing)
  /\ squares (fst out) !! 7%nat
     = Some {| sq_id := 7; owner := JStr "bob"; price := 1;
               color := Some "#ffffff";
               imageData := Some "data:image/jpeg;base64,NEW";
               priceHistory := [] |}
  /\ snd out = [ (7, saveWrite "alice" "data:image/jpeg;base64,NEW") ].
Proof.
  cbv zeta. repeat apply conj; vm_compute; reflexivity.
Qed.

(** C6, amended: [handleSaveDrawing] performs no ownership check and has
    no [NotOwner] outcome (the guard is in the interface: a click opens
    the editor for the owner only). Whenever a square is being edited and
    a user is signed in, a save replaces, in the latest grid, the
    imageData of the squares whose id is the edited one and changes
    nothing else: id, owner, price, color and priceHistory of every
    square are untouched, and so is the imageData of the other squares. *)
Theorem C6_save_changes_only_the_artwork
    r (img : string) ok st (cs : Square) (u : User) (i : nat) (s : Square) :
  currentSquare r = Some cs ->
  user r = Some u ->
  squares st !! i = Some s ->
  exists s',
    squares (fst (handleSaveDrawing r img ok st)) !! i = Some s'
    /\ sq_id s' = sq_id s
    /\ owner s' = owner s
    /\ price s' = price s
    /\ color s' = color s
    /\ priceHistory s' = priceHistory s
    /\ imageData s' = (if sq_id s =? sq_id cs then Some img else imageData s).
Proof.
  intros Hc Hu Hs.
  rewrite (handleSaveDrawing_grid r img ok st cs u Hc Hu).
  rewrite lookup_map, Hs. simpl. eexists. split; [reflexivity |].
  unfold saveUpdate. destruct (sq_id s =? sq_id cs); repeat apply conj; reflexivity.
Qed.

Lemma C6_save_changes_only_the_artwork_witness :
  let st0 := setUser (Some alice)
               (onSquaresSnapshot [mkQueryDoc 7 docAliceBought] initialState) in
  let r := handleSquareClick st0 7 st0 in
  exists s',
    squares (fst (handleSaveDrawing r drawing true r)) !! 7%nat = Some s'
    /\ owner s' = JStr "alice"
    /\ price s' = 1
    /\ priceHistory s' = []
    /\ imageData s' = Some drawing.
Proof.
  cbv zeta.
  destruct (C6_save_changes_only_the_artwork
              (handleSquareClick
                 (setUser (Some alice)
                    (onSquaresSnapshot [mkQueryDoc 7 docAliceBought] initialState)) 7
                 (setUser (Some alice)
                    (onSquaresSnapshot [mkQueryDoc 7 docAliceBought] initialState)))
              drawing true
              (handleSquareClick
                 (setUser (Some alice)
                    (onSquaresSnapshot [mkQueryDoc 7 docAliceBought] initialState)) 7
                 (setUser (Some alice)
                    (onSquaresSnapshot [mkQueryDoc 7 docAliceBought] initialState)))
              {| sq_id := 7; owner := JStr "alice"; price := 1;
                 color := Some "#ffffff"; imageData := None; priceHistory := [] |}
              alice 7%nat
              {| sq_id := 7; owner := JStr "alice"; price := 1;
                 color := Some "#ffffff"; imageData := None; priceHistory := [] |}
              ltac:(vm_compute; reflexivity) ltac:(vm_compute; reflexivity)
              ltac:(vm_compute; reflexivity))
    as (s' & Hs' & _ & Ho & Hp & _ & Hh & Hi).
  exists s'. repeat apply conj; assumption.
Defined.

(** ** Reconciliation *)

Lemma initializeGrid_keepsDefaults : keepsDefaults initializeGrid.
Proof.
  intros i s Hs.
  assert (Hlt : (i < length initializeGrid)%nat) by (eapply lookup_lt_Some; eauto).
  rewrite initializeGrid_length in Hlt.
  rewrite <- (Nat2Z.id i) in Hs.
  rewrite initializeGrid_lookup in Hs by lia.
  injection Hs as <-. simpl. auto.
Qed.

Lemma applySnapshotDoc_keepsDefaults l d :
  keepsDefaults l -> keepsDefaults (applySnapshotDoc l d).
Proof.
  intros Hl. unfold applySnapshotDoc.
  destruct ((0 <=? doc_id d) && (doc_id d <? Z.of_nat (length l))); [| exact Hl].
  destruct (l !! Z.to_nat (doc_id d)) as [s0|] eqn:E0; [| exact Hl].
  intros i s Hs.
  destruct (decide (Z.to_nat (doc_id d) = i)) as [<- | Hne].
  - rewrite list_lookup_insert_eq in Hs by (eapply lookup_lt_Some; eauto).
    injection Hs as <-. simpl. exact (Hl _ _ E0).
  - rewrite list_lookup_insert_ne in Hs by exact Hne. exact (Hl _ _ Hs).
Qed.

Lemma fold_applySnapshotDoc_keepsDefaults docs l :
  keepsDefaults l -> keepsDefaults (fold_left applySnapshotDoc docs l).
Proof.
  revert l. induction docs as [| d docs IH]; intros l Hl; simpl.
  - exact Hl.
  - apply IH. apply applySnapshotDoc_keepsDefaults. exact Hl.
Qed.

(** The reconciled grid never carries a stored price or history. *)
Lemma reconcile_keepsDefaults docs : keepsDefaults (reconcile docs).
Proof.
  apply fold_applySnapshotDoc_keepsDefaults, initializeGrid_keepsDefaults.
Qed.

(** C5, the code at the failing input. Bob buys square 7 from Alice for
    2; the stored document now holds owner Bob, price 2 and one history
    entry. Reconciling the snapshot that delivers this document copies
    the owner, the artwork and the color, but the resulting square has
    the default price 1 and an empty priceHistory: the two fields that
    the purchase wrote are not read back. *)
Theorem C5_stored_price_and_history_are_dropped :
  let aliceSquare :=
    {| sq_id := 7; owner := JStr "alice"; price := 1; color := Some "#ffffff";
       imageData := Some drawing; priceHistory := [] |} in
  let doc := mergeDoc (purchaseWrite "bob" aliceSquare 3000) docAliceDrew in
  doc = {| d_owner := JStr "bob";
           d_imageData := JStr drawing;
           d_color := JStr "#ffffff";
           d_price := Some 2;
           d_priceHistory :=
             Some [ {| ph_owner := JStr "alice"; ph_price := 1;
                       ph_timestamp := 3000 |} ] |}
  /\ reconcile [mkQueryDoc 7 doc] !! 7%nat
     = Some {| sq_id := 7; owner := JStr "bob"; price := 1;
               color := Some "#ffffff"; imageData := Some drawing;
               priceHistory := [] |}.
Proof.
  cbv zeta. split; vm_compute; reflexivity.
Qed.

(** ** Runs of purchases of one square *)

Lemma initializeGrid_ids : sq_id <$> initializeGrid = seqZ 0 (GRID_SIZE * GRID_SIZE).
Proof.
  unfold initializeGrid. rewrite <- list_fmap_compose.
  rewrite <- (list_fmap_id (seqZ 0 (GRID_SIZE * GRID_SIZE))) at 2.
  apply list_fmap_ext. intros i x _. reflexivity.
Qed.

Lemma initializeGrid_uniqueIds : uniqueIds initializeGrid.
Proof. unfold uniqueIds. rewrite initializeGrid_ids. apply NoDup_seqZ. Qed.

(** With unique ids, [find] returns the square stored under its id. *)
Lemma findSquare_lookup (l : list Square) (i : nat) (s : Square) :
  uniqueIds l -> l !! i = Some s -> findSquare l (sq_id s) = Some s.
Proof.
  unfold uniqueIds, findSquare.
  revert i. induction l as [| a l IH]; intros i Hnd Hs; [discriminate |].
  rewrite fmap_cons in Hnd. apply NoDup_cons in Hnd as [Hnotin Hnd].
  destruct i as [| i]; simpl in *.
  - injection Hs as ->. rewrite Z.eqb_refl. reflexivity.
  - destruct (sq_id a =? sq_id s) eqn:E.
    + apply Z.eqb_eq in E. exfalso. apply Hnotin. rewrite E.
      apply list_elem_of_fmap. exists s. split; [reflexivity |].
      eapply list_elem_of_lookup_2; eauto.
    + eapply IH; eauto.
Qed.

Lemma purchaseUpdate_uniqueIds k b o p now l :
  uniqueIds l -> uniqueIds (map (purchaseUpdate k b o p now) l).
Proof.
  unfold uniqueIds. intros H.
  replace (sq_id <$> map (purchaseUpdate k b o p now) l) with (sq_id <$> l);
    [exact H |].
  change (map (purchaseUpdate k b o p now) l)
    with (purchaseUpdate k b o p now <$> l).
  rewrite <- list_fmap_compose. apply list_fmap_ext.
  intros i x _. simpl. symmetry. apply purchaseUpdate_id.
Qed.

(** One purchase on a fresh render, seen from the purchased square. *)
Lemma purchase_grid k b now st q :
  k <> 0 ->
  findSquare (squares st) k = Some q ->
  squares (purchase k b now st)
  = map (purchaseUpdate k b (not_null (owner q)) (quotedPrice q) now) (squares st).
Proof.
  intros Hk Hq. unfold purchase.
  rewrite (finalizeSquarePurchase_commits _ now now true _ k
             (mkUser b None None) q); auto.
Qed.

(** A run of resales of a square that already has an owner: each one
    doubles the price and appends one entry that names the owner and the
    price it replaces. *)
Lemma purchases_of_owned_square (k : Z) (buyers : list (string * Z)) :
  forall (st : AppState) (i : nat) (s : Square) (b0 : string),
  k <> 0 ->
  uniqueIds (squares st) ->
  squares st !! i = Some s ->
  sq_id s = k ->
  owner s = JStr b0 ->
  b0 <> "" ->
  Forall (fun bt => fst bt <> "") buyers ->
  exists (s' : Square) (added : list PriceHistoryEntry),
    squares (purchases k buyers st) !! i = Some s'
    /\ price s' = price s * 2 ^ Z.of_nat (length buyers)
    /\ priceHistory s' = priceHistory s ++ added
    /\ length added = length buyers
    /\ forall (j : nat) (prev : string) (bt : string * Z),
         (b0 :: (fst <$> buyers)) !! j = Some prev ->
         buyers !! j = Some bt ->
         added !! j
         = Some {| ph_owner := JStr prev;
                   ph_price := price s * 2 ^ Z.of_nat j;
                   ph_timestamp := snd bt |}.
Proof.
  induction buyers as [| [b1 t1] rest IH];
    intros st i s b0 Hk Hnd Hs Hid Ho Hb0 Hall.
  - exists s, []. simpl. repeat apply conj.
    + exact Hs.
    + lia.
    + symmetry. apply app_nil_r.
    + reflexivity.
    + intros j prev bt _ Hbt. discriminate Hbt.
  - apply Forall_cons in Hall as [Hb1 Hall]. simpl in Hb1.
    assert (Hq : findSquare (squares st) k = Some s)
      by (rewrite <- Hid; eapply findSquare_lookup; eauto).
    pose proof (purchase_grid k b1 t1 st s Hk Hq) as Hgrid.
    assert (Hquote : quotedPrice s = price s * 2)
      by (eapply quotedPrice_owned; eauto).
    assert (Htruthy : truthy (owner s) = true).
    { rewrite Ho. simpl. apply negb_true_iff, String.eqb_neq. exact Hb0. }
    set (s1 := purchaseUpdate k b1 (not_null (owner s)) (quotedPrice s) t1 s).
    assert (Hs1 : squares (purchase k b1 t1 st) !! i = Some s1).
    { rewrite Hgrid, lookup_map, Hs. reflexivity. }
    assert (Hs1eq : s1 = {| sq_id := sq_id s; owner := JStr b1;
                            price := price s * 2; color := color s;
                            imageData := imageData s;
                            priceHistory :=
                              priceHistory s ++
                              [ {| ph_owner := JStr b0; ph_price := price s;
                                   ph_timestamp := t1 |} ] |}).
    { unfold s1, purchaseUpdate. rewrite Hid, Z.eqb_refl, Htruthy, Hquote, Ho.
      reflexivity. }
    destruct (IH (purchase k b1 t1 st) i s1 b1) as (s' & added & Hl & Hp & Hh & Hlen & Hent).
    + exact Hk.
    + rewrite Hgrid. apply purchaseUpdate_uniqueIds. exact Hnd.
    + exact Hs1.
    + rewrite Hs1eq. exact Hid.
    + rewrite Hs1eq. reflexivity.
    + exact Hb1.
    + exact Hall.
    + exists s',
        ({| ph_owner := JStr b0; ph_price := price s; ph_timestamp := t1 |} :: added).
      rewrite Hs1eq in Hp, Hh, Hent. simpl in Hp, Hh, Hent.
      repeat apply conj.
      * exact Hl.
      * rewrite Hp. cbn [length]. rewrite Nat2Z.inj_succ, Z.pow_succ_r by lia. lia.
      * rewrite Hh, <- app_assoc. reflexivity.
      * simpl. rewrite Hlen. reflexivity.
      * intros j prev bt Hprev Hbt. destruct j as [| j].
        -- simpl in Hprev, Hbt. injection Hprev as <-. injection Hbt as <-.
           simpl. rewrite Z.mul_1_r. reflexivity.
        -- simpl in Hprev, Hbt. simpl.
           rewrite (Hent j prev bt Hprev Hbt).
           rewrite Nat2Z.inj_succ, Z.pow_succ_r by lia.
           do 2 f_equal. lia.
Qed.

(** The first purchase of a square of the default grid: the buyer
    becomes the owner, the price stays the listing price and the history
    stays empty. *)
Lemma first_purchase_from_initial (k : Z) (b0 : string) (t0 : Z) :
  0 < k < GRID_SIZE * GRID_SIZE ->
  squares (purchase k b0 t0 initialState) !! Z.to_nat k
  = Some {| sq_id := k; owner := JStr b0; price := INITIAL_SQUARE_PRICE;
            color := Some "#ffffff"; imageData := None; priceHistory := [] |}
  /\ uniqueIds (squares (purchase k b0 t0 initialState)).
Proof.
  intros Hk.
  assert (Hl : squares initialState !! Z.to_nat k = Some (defaultSquare k))
    by (apply initializeGrid_lookup; lia).
  assert (Hq : findSquare (squares initialState) k = Some (defaultSquare k)).
  { change k with (sq_id (defaultSquare k)) at 1.
    eapply findSquare_lookup; [apply initializeGrid_uniqueIds | exact Hl]. }
  rewrite (purchase_grid k b0 t0 initialState (defaultSquare k)) by (lia || exact Hq).
  split.
  - rewrite lookup_map, Hl. simpl. unfold purchaseUpdate. simpl.
    rewrite Z.eqb_refl. reflexivity.
  - apply purchaseUpdate_uniqueIds, initializeGrid_uniqueIds.
Qed.

(** The ledger of a square of the default grid after a first purchase
    by [b0] followed by the resales [buyers]. *)
Lemma ledger_from_initial (k : Z) (b0 : string) (t0 : Z) (buyers : list (string * Z)) :
  0 < k < GRID_SIZE * GRID_SIZE ->
  b0 <> "" ->
  Forall (fun bt => fst bt <> "") buyers ->
  exists s : Square,
    squares (purchases k ((b0, t0) :: buyers) initialState) !! Z.to_nat k = Some s
    /\ price s = INITIAL_SQUARE_PRICE * 2 ^ Z.of_nat (length buyers)
    /\ length (priceHistory s) = length buyers
    /\ forall (j : nat) (prev : string) (bt : string * Z),
         (b0 :: (fst <$> buyers)) !! j = Some prev ->
         buyers !! j = Some bt ->
         priceHistory s !! j
         = Some {| ph_owner := JStr prev;
                   ph_price := INITIAL_SQUARE_PRICE * 2 ^ Z.of_nat j;
                   ph_timestamp := snd bt |}.
Proof.
  intros Hk Hb0 Hall.
  destruct (first_purchase_from_initial k b0 t0 Hk) as [Hfirst Hnd].
  cbn [purchases].
  destruct (purchases_of_owned_square k buyers
              (purchase k b0 t0 initialState) (Z.to_nat k) _ b0
              ltac:(lia) Hnd Hfirst eq_refl eq_refl Hb0 Hall)
    as (s' & added & Hl & Hp & Hh & Hlen & Hent).
  simpl in Hp, Hh, Hent.
  exists s'. rewrite Hh. repeat apply conj; auto.
Qed.

(** C7, the claim as stated fails when the first purchase is counted:
    after the one ownership transition that takes square 7 from nobody
    to Alice, its price is 1, not 1 * 2^1. *)
Lemma C7_first_purchase_does_not_double :
  (owner <$> squares initialState !! 7%nat) = Some JNull
  /\ (owner <$> squares (purchases 7 [("alice", 1000)] initialState) !! 7%nat)
     = Some (JStr "alice")
  /\ (price <$> squares (purchases 7 [("alice", 1000)] initialState) !! 7%nat)
     = Some 1
  /\ (price <$> squares (purchases 7 [("alice", 1000)] initialState) !! 7%nat)
     <> Some (INITIAL_SQUARE_PRICE * 2 ^ 1).
Proof.
  assert (H : (price <$> squares (purchases 7 [("alice", 1000)] initialState) !! 7%nat)
              = Some 1) by (vm_compute; reflexivity).
  repeat apply conj; try (vm_compute; reflexivity).
  rewrite H. vm_compute. discriminate.
Qed.

(** C7, amended: the purchase that takes a square of the default grid
    from nobody to its first owner leaves the price at the initial price
    1; each of the [n] later purchases, made from the then owner through
    [finalizeSquarePurchase] on an up-to-date render, doubles it. After
    the first purchase and [n] resales the price is
    [INITIAL_SQUARE_PRICE * 2^n]. (Square 0 cannot be purchased; user
    ids are non-empty strings.) *)
Theorem C7_price_is_initial_times_two_to_the_resales
    (k : Z) (b0 : string) (t0 : Z) (buyers : list (string * Z)) :
  0 < k < GRID_SIZE * GRID_SIZE ->
  b0 <> "" ->
  Forall (fun bt => fst bt <> "") buyers ->
  exists s : Square,
    squares (purchases k ((b0, t0) :: buyers) initialState) !! Z.to_nat k = Some s
    /\ price s = INITIAL_SQUARE_PRICE * 2 ^ Z.of_nat (length buyers).
Proof.
  intros Hk Hb0 Hall.
  destruct (ledger_from_initial k b0 t0 buyers Hk Hb0 Hall) as (s & Hl & Hp & _).
  exists s. split; assumption.
Qed.

Lemma C7_price_is_initial_times_two_to_the_resales_witness :
  exists s : Square,
    squares (purchases 7 [("alice", 1000); ("bob", 2000); ("carol", 3000)]
               initialState) !! 7%nat = Some s
    /\ price s = INITIAL_SQUARE_PRICE * 2 ^ 2.
Proof.
  apply (C7_price_is_initial_times_two_to_the_resales 7 "alice" 1000
           [("bob", 2000); ("carol", 3000)]).
  - unfold GRID_SIZE. lia.
  - discriminate.
  - repeat constructor; discriminate.
Defined.

(** C8, the claim as stated fails when the first purchase is counted:
    after the one ownership transition that takes square 7 from nobody
    to Alice, priceHistory is empty, not of length 1. *)
Lemma C8_first_purchase_appends_no_entry :
  (owner <$> squares initialState !! 7%nat) = Some JNull
  /\ (owner <$> squares (purchases 7 [("alice", 1000)] initialState) !! 7%nat)
     = Some (JStr "alice")
  /\ (priceHistory <$> squares (purchases 7 [("alice", 1000)] initialState) !! 7%nat)
     = Some []
  /\ (length <$>
        (priceHistory <$> squares (purchases 7 [("alice", 1000)] initialState) !! 7%nat))
     <> Some 1%nat.
Proof.
  assert (H : (priceHistory <$>
                 squares (purchases 7 [("alice", 1000)] initialState) !! 7%nat)
              = Some []) by (vm_compute; reflexivity).
  repeat apply conj; try (vm_compute; reflexivity).
  rewrite H. simpl. discriminate.
Qed.

(** C8, amended: the purchase that gives a square of the default grid
    its first owner appends nothing to priceHistory; each of the [n]
    later purchases from the then owner appends exactly one entry. After
    the first purchase and [n] resales priceHistory has length [n], and
    its entry number [j] (in the order of the resales) records the owner
    that resale [j] replaced, the price before that resale
    ([INITIAL_SQUARE_PRICE * 2^j]) and the time of the resale. *)
Theorem C8_history_has_one_entry_per_resale_in_order
    (k : Z) (b0 : string) (t0 : Z) (buyers : list (string * Z)) :
  0 < k < GRID_SIZE * GRID_SIZE ->
  b0 <> "" ->
  Forall (fun bt => fst bt <> "") buyers ->
  exists s : Square,
    squares (purchases k ((b0, t0) :: buyers) initialState) !! Z.to_nat k = Some s
    /\ length (priceHistory s) = length buyers
    /\ forall (j : nat) (prev : string) (bt : string * Z),
         (b0 :: (fst <$> buyers)) !! j = Some prev ->
         buyers !! j = Some bt ->
         priceHistory s !! j
         = Some {| ph_owner := JStr prev;
                   ph_price := INITIAL_SQUARE_PRICE * 2 ^ Z.of_nat j;
                   ph_timestamp := snd bt |}.
Proof.
  intros Hk Hb0 Hall.
  destruct (ledger_from_initial k b0 t0 buyers Hk Hb0 Hall)
    as (s & Hl & _ & Hlen & Hent).
  exists s. repeat apply conj; assumption.
Qed.

Lemma C8_history_has_one_entry_per_resale_witness :
  exists s : Square,
    squares (purchases 7 [("alice", 1000); ("bob", 2000); ("carol", 3000)]
               initialState) !! 7%nat = Some s
    /\ length (priceHistory s) = 2%nat
    /\ priceHistory s !! 1%nat
       = Some {| ph_owner := JStr "bob"; ph_price := 2; ph_timestamp := 3000 |}.
Proof.
  destruct (C8_history_has_one_entry_per_resale_in_order 7 "alice" 1000
              [("bob", 2000); ("carol", 3000)]
              ltac:(unfold GRID_SIZE; lia) ltac:(discriminate)
              ltac:(repeat constructor; discriminate))
    as (s & Hl & Hlen & Hent).
  exists s. split; [exact Hl |]. split; [exact Hlen |].
  exact (Hent 1%nat "bob" ("carol", 3000) eq_refl eq_refl).
Defined.

(** ** The neighbourhood of a square *)

Import JsNumber GridGeometry.

Lemma isValidSquarePosition_spec (x y : Z) :
  isValidSquarePosition x y = true
  <-> 0 <= x < GRID_SIZE /\ 0 <= y < GRID_SIZE.
Proof.
  unfold isValidSquarePosition.
  rewrite !andb_true_iff, !Z.leb_le, !Z.ltb_lt. tauto.
Qed.

Lemma calculateSquareId_in_range (x y : Z) :
  0 <= x < GRID_SIZE -> 0 <= y < GRID_SIZE ->
  0 <= calculateSquareId x y < GRID_SIZE * GRID_SIZE.
Proof. unfold calculateSquareId, GRID_SIZE. nia. Qed.

Lemma calculateSquarePosition_of_id (x y : Z) :
  0 <= x < GRID_SIZE -> 0 <= y < GRID_SIZE ->
  calculateSquarePosition (calculateSquareId x y) = {| pos_x := x; pos_y := y |}.
Proof.
  intros Hx Hy.
  unfold calculateSquarePosition, calculateSquareId, GRID_SIZE in *.
  f_equal.
  - rewrite Z.rem_mod_nonneg by lia.
    rewrite Z.add_comm, Z.mod_add by lia. apply Z.mod_small; lia.
  - rewrite Z.add_comm, Z.div_add by lia.
    rewrite Z.div_small by lia. lia.
Qed.

Lemma calculateSquarePosition_in_range (id : Z) :
  0 <= id < GRID_SIZE * GRID_SIZE ->
  0 <= pos_x (calculateSquarePosition id) < GRID_SIZE
  /\ 0 <= pos_y (calculateSquarePosition id) < GRID_SIZE.
Proof.
  intros Hid. unfold calculateSquarePosition, GRID_SIZE in *. simpl.
  rewrite Z.rem_mod_nonneg by lia.
  pose proof (Z.mod_pos_bound id 120 ltac:(lia)).
  pose proof (Z.div_pos id 120 ltac:(lia) ltac:(lia)).
  assert (id / 120 < 120) by (apply Z.div_lt_upper_bound; lia).
  lia.
Qed.

(** X1: a position is valid exactly when its id is valid and maps back
    to the position. *)
Theorem isValidSquarePosition_iff_round_trip (x y : Z) :
  isValidSquarePosition x y = true
  <-> isValidSquareId (calculateSquareId x y) = true
      /\ calculateSquarePosition (calculateSquareId x y)
         = {| pos_x := x; pos_y := y |}.
Proof.
  rewrite isValidSquarePosition_spec, isValidSquareId_spec. split.
  - intros [Hx Hy]. split.
    + apply calculateSquareId_in_range; assumption.
    + apply calculateSquarePosition_of_id; assumption.
  - intros [Hid Hpos].
    pose proof (calculateSquarePosition_in_range _ Hid) as Hin.
    rewrite Hpos in Hin. exact Hin.
Qed.


Lemma fold_left_push_omap (p : SquarePosition) (ds : list (Z * Z)) (acc : list Z) :
  fold_left
    (fun neighbors d =>
       let nx := pos_x p + fst d in
       let ny := pos_y p + snd d in
       if isValidSquarePosition nx ny
       then neighbors ++ [calculateSquareId nx ny]
       else neighbors)
    ds acc
  = acc ++ omap (neighborAt p) ds.
Proof.
  revert acc. induction ds as [| d ds IH]; intros acc; simpl.
  - symmetry. apply app_nil_r.
  - rewrite IH. unfold neighborAt.
    destruct (isValidSquarePosition (pos_x p + fst d) (pos_y p + snd d)).
    + rewrite <- app_assoc. reflexivity.
    + reflexivity.
Qed.

Lemma getNeighborSquareIds_omap (id : Z) :
  getNeighborSquareIds id
  = omap (neighborAt (calculateSquarePosition id)) directions.
Proof. unfold getNeighborSquareIds. apply fold_left_push_omap. Qed.

Lemma elem_of_directions (dx dy : Z) :
  (dx, dy) ∈ directions <-> Z.max (Z.abs dx) (Z.abs dy) = 1.
Proof.
  unfold directions. split.
  - intros H. repeat (apply elem_of_cons in H as [H | H];
                      [injection H as -> ->; reflexivity |]).
    apply elem_of_nil in H. contradiction.
  - intros H.
    assert (Hdx : dx = -1 \/ dx = 0 \/ dx = 1) by lia.
    assert (Hdy : dy = -1 \/ dy = 0 \/ dy = 1) by lia.
    destruct Hdx as [-> | [-> | ->]]; destruct Hdy as [-> | [-> | ->]];
      try (simpl in H; lia);
      repeat (first [apply list_elem_of_here | apply list_elem_of_further]).
Qed.

(** X2: the ids returned by [getNeighborSquareIds id] are exactly the
    valid ids whose position is at distance one from the position of
    [id], rows and columns taken together (the up to eight squares
    around it, never [id] itself, never an id outside the grid). *)
Theorem getNeighborSquareIds_spec (id n : Z) :
  n ∈ getNeighborSquareIds id
  <-> isValidSquareId n = true
      /\ Z.max
           (Z.abs (pos_x (calculateSquarePosition n)
                   - pos_x (calculateSquarePosition id)))
           (Z.abs (pos_y (calculateSquarePosition n)
                   - pos_y (calculateSquarePosition id))) = 1.
Proof.
  rewrite getNeighborSquareIds_omap, list_elem_of_omap.
  remember (calculateSquarePosition id) as p eqn:Hp. clear Hp. split.
  - intros ([dx dy] & Hd & Hn). unfold neighborAt in Hn. cbn [fst snd] in Hn.
    destruct (isValidSquarePosition (pos_x p + dx) (pos_y p + dy)) eqn:Hv;
      [| discriminate].
    injection Hn as <-.
    apply isValidSquarePosition_spec in Hv as [Hx Hy].
    split.
    + apply isValidSquareId_spec, calculateSquareId_in_range; assumption.
    + rewrite calculateSquarePosition_of_id by assumption. cbn [pos_x pos_y].
      apply elem_of_directions in Hd.
      replace (pos_x p + dx - pos_x p) with dx by lia.
      replace (pos_y p + dy - pos_y p) with dy by lia. exact Hd.
  - intros [Hn Hdist]. apply isValidSquareId_spec in Hn.
    destruct (calculateSquarePosition_in_range n Hn) as [Hx Hy].
    pose proof (calculateSquareId_of_position n ltac:(lia)) as Hback.
    remember (calculateSquarePosition n) as q eqn:Hq. clear Hq.
    exists (pos_x q - pos_x p, pos_y q - pos_y p). split.
    + apply elem_of_directions. exact Hdist.
    + unfold neighborAt. cbn [fst snd].
      replace (pos_x p + (pos_x q - pos_x p)) with (pos_x q) by lia.
      replace (pos_y p + (pos_y q - pos_y p)) with (pos_y q) by lia.
      assert (Hv : isValidSquarePosition (pos_x q) (pos_y q) = true)
        by (apply isValidSquarePosition_spec; split; assumption).
      rewrite Hv. f_equal. exact Hback.
Qed.

(** X3: inside the grid the neighbourhood is symmetric: if [j] is
    returned for the valid id [i], then [i] is returned for [j]. *)
Theorem getNeighborSquareIds_symmetric (i j : Z) :
  isValidSquareId i = true ->
  j ∈ getNeighborSquareIds i ->
  i ∈ getNeighborSquareIds j.
Proof.
  intros Hi Hj. apply getNeighborSquareIds_spec in Hj as [_ Hd].
  apply getNeighborSquareIds_spec. split; [exact Hi |]. lia.
Qed.

Lemma getNeighborSquareIds_symmetric_witness :
  isValidSquareId 0 = true
  /\ 121 ∈ getNeighborSquareIds 0
  /\ 0 ∈ getNeighborSquareIds 121.
Proof.
  assert (H0 : isValidSquareId 0 = true) by reflexivity.
  assert (H1 : 121 ∈ getNeighborSquareIds 0).
  { change (121 ∈ [1; 120; 121]).
    apply list_elem_of_further, list_elem_of_further, list_elem_of_here. }
  split; [exact H0 |]. split; [exact H1 |].
  exact (getNeighborSquareIds_symmetric 0 121 H0 H1).
Defined.

Ltac decide_valid_positions :=
  repeat match goal with
  | |- context [isValidSquarePosition ?a ?b] =>
      let H := fresh "Hv" in
      destruct (isValidSquarePosition a b) eqn:H;
      [ apply isValidSquarePosition_spec in H
      | apply not_true_iff_false in H; rewrite isValidSquarePosition_spec in H ];
      try (exfalso; unfold GRID_SIZE in *; lia)
  end.

(** X4: a valid square has as many neighbours as the grid allows: the
    columns around it (two on the left and right border, else three)
    times the rows around it, minus the square itself; that is 8 inside
    the grid, 5 on a border and 3 in a corner. *)
Theorem getNeighborSquareIds_length (id : Z) :
  isValidSquareId id = true ->
  Z.of_nat (length (getNeighborSquareIds id))
  = (if (pos_x (calculateSquarePosition id) =? 0)
        || (pos_x (calculateSquarePosition id) =? GRID_SIZE - 1)
     then 2 else 3)
    * (if (pos_y (calculateSquarePosition id) =? 0)
          || (pos_y (calculateSquarePosition id) =? GRID_SIZE - 1)
       then 2 else 3)
    - 1.
Proof.
  intros Hid. apply isValidSquareId_spec in Hid.
  destruct (calculateSquarePosition_in_range id Hid) as [Hx Hy].
  rewrite getNeighborSquareIds_omap.
  remember (calculateSquarePosition id) as p eqn:Hp. clear Hp Hid.
  destruct p as [x y]. cbn [pos_x pos_y] in *.
  unfold directions, neighborAt. cbn [omap list_omap fst snd pos_x pos_y].
  destruct (Z.eqb_spec x 0) as [-> | Hx0];
    destruct (Z.eqb_spec y 0) as [-> | Hy0];
    try destruct (Z.eqb_spec x (GRID_SIZE - 1)) as [-> | Hx1];
    try destruct (Z.eqb_spec y (GRID_SIZE - 1)) as [-> | Hy1];
    cbn [orb]; decide_valid_positions; reflexivity.
Qed.

Lemma getNeighborSquareIds_length_witness :
  isValidSquareId 119 = true
  /\ Z.of_nat (length (getNeighborSquareIds 119)) = 3.
Proof.
  split; [reflexivity |].
  exact (getNeighborSquareIds_length 119 eq_refl).
Defined.

(** X5: two valid positions that [areNeighbors] accepts (one step apart
    in a row or in a column) are neighbours for [getNeighborSquareIds]
    too. *)
Theorem areNeighbors_in_getNeighborSquareIds (p q : SquarePosition) :
  isValidSquarePosition (pos_x p) (pos_y p) = true ->
  isValidSquarePosition (pos_x q) (pos_y q) = true ->
  areNeighbors p q = true ->
  calculateSquareId (pos_x q) (pos_y q)
  ∈ getNeighborSquareIds (calculateSquareId (pos_x p) (pos_y p)).
Proof.
  intros Hp Hq Hn.
  apply isValidSquarePosition_spec in Hp as [Hpx Hpy].
  apply isValidSquarePosition_spec in Hq as [Hqx Hqy].
  apply getNeighborSquareIds_spec. split.
  - apply isValidSquareId_spec, calculateSquareId_in_range; assumption.
  - rewrite !calculateSquarePosition_of_id by assumption. cbn [pos_x pos_y].
    unfold areNeighbors in Hn.
    apply orb_true_iff in Hn as [Hn | Hn];
      apply andb_true_iff in Hn as [H1 H2];
      apply Z.eqb_eq in H1; apply Z.eqb_eq in H2; lia.
Qed.

Lemma areNeighbors_in_getNeighborSquareIds_witness :
  areNeighbors {| pos_x := 5; pos_y := 0 |} {| pos_x := 5; pos_y := 1 |} = true
  /\ calculateSquareId 5 1 ∈ getNeighborSquareIds (calculateSquareId 5 0).
Proof.
  split; [reflexivity |].
  exact (areNeighbors_in_getNeighborSquareIds
           {| pos_x := 5; pos_y := 0 |} {| pos_x := 5; pos_y := 1 |}
           eq_refl eq_refl eq_refl).
Defined.

(** ** Layout *)

Lemma floorDiv_by_clamped_count (a : Z) :
  floorDiv a (Z.min (a / SQUARE_MIN_SIZE) GRID_SIZE) = NaN /\ a = 0
  \/ floorDiv a (Z.min (a / SQUARE_MIN_SIZE) GRID_SIZE) = PInf /\ 0 < a
  \/ (exists q, floorDiv a (Z.min (a / SQUARE_MIN_SIZE) GRID_SIZE) = Fin q) /\ a <> 0.
Proof.
  unfold floorDiv, SQUARE_MIN_SIZE, GRID_SIZE.
  destruct (Z.eqb_spec (Z.min (a / 14) 120) 0) as [Hz | Hz].
  - assert (Ha : 0 <= a < 14).
    { assert (H14 : a / 14 = 0) by lia.
      apply Z.div_small_iff in H14; lia. }
    destruct (Z.ltb_spec 0 a); [right; left; split; [reflexivity | lia] |].
    destruct (Z.ltb_spec a 0); [lia |].
    left. split; [reflexivity | lia].
  - right. right. split; [eexists; reflexivity |].
    intros ->. apply Hz. reflexivity.
Qed.

(** X6: [calculateGridSize] yields [NaN] for the square size, and with
    it for every other field, exactly when the window is 20 pixels wide
    or 80 pixels high, where an available dimension of zero is divided
    by a count of zero. *)
Theorem calculateGridSize_NaN_iff (windowWidth windowHeight : Z) :
  (gs_squareSize (calculateGridSize windowWidth windowHeight) = NaN
   <-> windowWidth = 20 \/ windowHeight = 80)
  /\ (gs_squareSize (calculateGridSize windowWidth windowHeight) = NaN ->
      calculateGridSize windowWidth windowHeight
      = {| gs_width := NaN; gs_height := NaN; gs_squareSize := NaN;
           gs_visibleCols := NaN; gs_visibleRows := NaN |}).
Proof.
  unfold calculateGridSize. cbv zeta. cbn [gs_squareSize].
  destruct (floorDiv_by_clamped_count (windowWidth - 20))
    as [[-> Hw] | [[-> Hw] | [[qw ->] Hw]]];
    destruct (floorDiv_by_clamped_count (windowHeight - 60 - 20))
      as [[-> Hh] | [[-> Hh] | [[qh ->] Hh]]];
    cbn [jsMin jsMax floorDivNum jsMul]; unfold SQUARE_MAX_SIZE, SQUARE_MIN_SIZE;
    (split; [split; [intros H; try discriminate H; lia
                    | intros H; try reflexivity; exfalso; lia]
            | intros H; try discriminate H; reflexivity]).
Qed.

(** X7: for a window more than 20 pixels wide and more than 80 pixels
    high, [calculateGridSize] returns finite values: a square size
    between [SQUARE_MIN_SIZE] and [SQUARE_MAX_SIZE], between 0 and
    [GRID_SIZE] visible columns and rows, and a grid of that many squares
    that fits into the available width and height. *)
Theorem calculateGridSize_fits (windowWidth windowHeight : Z) :
  20 < windowWidth ->
  80 < windowHeight ->
  exists size cols rows : Z,
    calculateGridSize windowWidth windowHeight
    = {| gs_width := Fin (cols * size); gs_height := Fin (rows * size);
         gs_squareSize := Fin size;
         gs_visibleCols := Fin cols; gs_visibleRows := Fin rows |}
    /\ SQUARE_MIN_SIZE <= size <= SQUARE_MAX_SIZE
    /\ 0 <= cols <= GRID_SIZE
    /\ 0 <= rows <= GRID_SIZE
    /\ cols * size <= windowWidth - 20
    /\ rows * size <= windowHeight - 80.
Proof.
  intros Hw Hh. unfold calculateGridSize. cbv zeta.
  replace (windowHeight - 60 - 20) with (windowHeight - 80) by lia.
  assert (Hsize : exists size,
             jsMax (Fin SQUARE_MIN_SIZE)
               (jsMin (jsMin (floorDiv (windowWidth - 20)
                                (Z.min ((windowWidth - 20) / SQUARE_MIN_SIZE) GRID_SIZE))
                             (floorDiv (windowHeight - 80)
                                (Z.min ((windowHeight - 80) / SQUARE_MIN_SIZE) GRID_SIZE)))
                      (Fin SQUARE_MAX_SIZE)) = Fin size
             /\ SQUARE_MIN_SIZE <= size <= SQUARE_MAX_SIZE).
  { destruct (floorDiv_by_clamped_count (windowWidth - 20))
      as [[-> Hw'] | [[-> Hw'] | [[qw ->] Hw']]]; [lia | |];
    destruct (floorDiv_by_clamped_count (windowHeight - 80))
      as [[-> Hh'] | [[-> Hh'] | [[qh ->] Hh']]]; try lia;
    cbn [jsMin jsMax]; eexists; (split; [reflexivity |]);
    unfold SQUARE_MIN_SIZE, SQUARE_MAX_SIZE; lia. }
  destruct Hsize as (size & -> & Hs).
  unfold SQUARE_MIN_SIZE, SQUARE_MAX_SIZE in Hs.
  cbn [floorDivNum]. unfold floorDiv.
  destruct (Z.eqb_spec size 0) as [-> | _]; [lia |].
  cbn [jsMin jsMul].
  exists size, (Z.min ((windowWidth - 20) / size) GRID_SIZE),
    (Z.min ((windowHeight - 80) / size) GRID_SIZE).
  split; [reflexivity |].
  pose proof (Z.div_pos (windowWidth - 20) size ltac:(lia) ltac:(lia)).
  pose proof (Z.div_pos (windowHeight - 80) size ltac:(lia) ltac:(lia)).
  pose proof (Z.mul_div_le (windowWidth - 20) size ltac:(lia)).
  pose proof (Z.mul_div_le (windowHeight - 80) size ltac:(lia)).
  unfold SQUARE_MIN_SIZE, SQUARE_MAX_SIZE, GRID_SIZE. nia.
Qed.

Lemma calculateGridSize_fits_witness :
  exists size cols rows : Z,
    calculateGridSize 1920 1080
    = {| gs_width := Fin (cols * size); gs_height := Fin (rows * size);
         gs_squareSize := Fin size;
         gs_visibleCols := Fin cols; gs_visibleRows := Fin rows |}
    /\ SQUARE_MIN_SIZE <= size <= SQUARE_MAX_SIZE
    /\ 0 <= cols <= GRID_SIZE
    /\ 0 <= rows <= GRID_SIZE
    /\ cols * size <= 1920 - 20
    /\ rows * size <= 1080 - 80.
Proof.
  exact (calculateGridSize_fits 1920 1080 ltac:(lia) ltac:(lia)).
Defined.

(** X8: [calculateGridDimensions] always chooses between 50 and 200
    squares per side, and a grid of that many squares of the returned
    size never exceeds the window width or the height left under the
    header; on a window at least 300 pixels wide and 340 high the squares
    are at least 6 pixels. *)
Theorem calculateGridDimensions_bounds (windowWidth windowHeight : Z) :
  let d := calculateGridDimensions windowWidth windowHeight in
  50 <= gd_gridSize d <= 200
  /\ gd_gridSize d * gd_squareSize d <= windowWidth
  /\ gd_gridSize d * gd_squareSize d <= windowHeight - 40
  /\ (300 <= windowWidth -> 340 <= windowHeight -> 6 <= gd_squareSize d).
Proof.
  unfold calculateGridDimensions. cbv zeta. cbn [gd_gridSize gd_squareSize].
  set (g := Z.max 50 (Z.min (Z.min (windowWidth / 6) ((windowHeight - 40) / 6)) 200)).
  assert (Hg : 50 <= g <= 200) by (unfold g; lia).
  pose proof (Z.mul_div_le windowWidth g ltac:(lia)) as Hw.
  pose proof (Z.mul_div_le (windowHeight - 40) g ltac:(lia)) as Hh.
  split; [exact Hg |]. split; [nia |]. split; [nia |].
  intros Hw300 Hh340.
  assert (H1 : 50 <= windowWidth / 6) by (apply Z.div_le_lower_bound; lia).
  assert (H2 : 50 <= (windowHeight - 40) / 6) by (apply Z.div_le_lower_bound; lia).
  pose proof (Z.mul_div_le windowWidth 6 ltac:(lia)).
  pose proof (Z.mul_div_le (windowHeight - 40) 6 ltac:(lia)).
  assert (Hgw : 6 * g <= windowWidth) by (unfold g; lia).
  assert (Hgh : 6 * g <= windowHeight - 40) by (unfold g; lia).
  assert (6 <= windowWidth / g) by (apply Z.div_le_lower_bound; lia).
  assert (6 <= (windowHeight - 40) / g) by (apply Z.div_le_lower_bound; lia).
  lia.
Qed.

Lemma calculateGridDimensions_bounds_witness :
  6 <= gd_squareSize (calculateGridDimensions 1920 1080).
Proof.
  exact (proj2 (proj2 (proj2 (calculateGridDimensions_bounds 1920 1080)))
           ltac:(lia) ltac:(lia)).
Defined.

(** X9: [calculateGridSizeForFullScreen] returns a square grid of
    [GRID_SIZE] squares of at least one pixel; the grid leaves less than
    one row of squares ([GRID_SIZE] pixels) of the window uncovered in
    either direction, and on a window at least [GRID_SIZE] pixels wide
    or with at least [GRID_SIZE] pixels under the header it overflows at
    most one of the two dimensions. *)
Theorem calculateGridSizeForFullScreen_covers (windowWidth windowHeight : Z) :
  let f := calculateGridSizeForFullScreen windowWidth windowHeight in
  1 <= fs_squareSize f
  /\ fs_width f = GRID_SIZE * fs_squareSize f
  /\ fs_height f = GRID_SIZE * fs_squareSize f
  /\ windowWidth - GRID_SIZE < fs_width f
  /\ windowHeight - 52 - GRID_SIZE < fs_height f
  /\ (GRID_SIZE <= windowWidth \/ GRID_SIZE <= windowHeight - 52 ->
      fs_width f <= windowWidth \/ fs_height f <= windowHeight - 52).
Proof.
  unfold calculateGridSizeForFullScreen, GRID_SIZE. cbv zeta.
  cbn [fs_squareSize fs_width fs_height].
  pose proof (Z.mul_div_le windowWidth 120 ltac:(lia)).
  pose proof (Z.mul_div_le (windowHeight - 52) 120 ltac:(lia)).
  pose proof (Z.mod_pos_bound windowWidth 120 ltac:(lia)).
  pose proof (Z.mod_pos_bound (windowHeight - 52) 120 ltac:(lia)).
  pose proof (Z.div_mod windowWidth 120 ltac:(lia)).
  pose proof (Z.div_mod (windowHeight - 52) 120 ltac:(lia)).
  repeat apply conj; lia.
Qed.

Lemma calculateGridSizeForFullScreen_covers_witness :
  fs_width (calculateGridSizeForFullScreen 1920 1080) <= 1920
  \/ fs_height (calculateGridSizeForFullScreen 1920 1080) <= 1080 - 52.
Proof.
  assert (Hwide : GRID_SIZE <= 1920 \/ GRID_SIZE <= 1080 - 52)
    by (left; unfold GRID_SIZE; lia).
  exact (proj2 (proj2 (proj2 (proj2 (proj2
           (calculateGridSizeForFullScreen_covers 1920 1080))))) Hwide).
Defined.

(** ** The squares under the viewport *)

Lemma floor_le_iff (a b c : Z) : 0 < b -> (a / b <= c <-> a < (c + 1) * b).
Proof.
  intros Hb. pose proof (Z.div_mod a b ltac:(lia)).
  pose proof (Z.mod_pos_bound a b Hb). split; intros; nia.
Qed.

Lemma lt_ceilDiv_iff (a b c : Z) : 0 < b -> (c < ceilDiv a b <-> c * b < a).
Proof.
  intros Hb. unfold ceilDiv.
  pose proof (Z.div_mod (- a) b ltac:(lia)).
  pose proof (Z.mod_pos_bound (- a) b Hb). split; intros; nia.
Qed.

Lemma elem_of_visible_ids (id startCol endCol startRow endRow : Z) :
  id ∈ (row ← seqZ startRow (endRow - startRow);
        col ← seqZ startCol (endCol - startCol);
        [calculateSquareId col row])
  <-> exists col row,
        id = calculateSquareId col row
        /\ startCol <= col < endCol /\ startRow <= row < endRow.
Proof.
  rewrite list_elem_of_bind. split.
  - intros (row & Hin & Hrow). apply list_elem_of_bind in Hin as (col & Hid & Hcol).
    apply list_elem_of_singleton in Hid.
    apply elem_of_seqZ in Hrow. apply elem_of_seqZ in Hcol.
    exists col, row. repeat split; lia.
  - intros (col & row & -> & Hcol & Hrow).
    exists row. split; [| apply elem_of_seqZ; lia].
    apply list_elem_of_bind. exists col.
    split; [apply list_elem_of_singleton; reflexivity | apply elem_of_seqZ; lia].
Qed.

(** X10: for a positive square size and a viewport scrolled to the
    right of and below the origin, [calculateVisibleSquares] lists only
    valid ids, and a square of the grid is listed exactly when it
    overlaps the viewport: its pixel columns
    [[col * squareSize, (col + 1) * squareSize)] meet
    [[scrollLeft, scrollLeft + width)], and likewise for the rows. *)
Theorem calculateVisibleSquares_overlap
    (scrollLeft scrollTop width height squareSize : Z) :
  0 < squareSize ->
  0 <= scrollLeft ->
  0 <= scrollTop ->
  exists v : VisibleSquares,
    calculateVisibleSquares scrollLeft scrollTop width height squareSize = Some v
    /\ (forall id : Z, id ∈ visibleSquareIds v -> isValidSquareId id = true)
    /\ (forall col row : Z,
          isValidSquarePosition col row = true ->
          (calculateSquareId col row ∈ visibleSquareIds v
           <-> col * squareSize < scrollLeft + width
               /\ scrollLeft < (col + 1) * squareSize
               /\ row * squareSize < scrollTop + height
               /\ scrollTop < (row + 1) * squareSize)).
Proof.
  intros Hsize Hleft Htop. unfold calculateVisibleSquares.
  destruct (Z.eqb_spec squareSize 0) as [-> | _]; [lia |].
  cbv zeta. eexists. split; [reflexivity |]. cbn [visibleSquareIds].
  pose proof (Z.div_pos scrollLeft squareSize Hleft Hsize) as Hsc.
  pose proof (Z.div_pos scrollTop squareSize Htop Hsize) as Hsr.
  split.
  - intros id Hid. apply elem_of_visible_ids in Hid as (col & row & -> & Hc & Hr).
    apply isValidSquareId_spec, calculateSquareId_in_range; lia.
  - intros col row Hv. apply isValidSquarePosition_spec in Hv as [Hc Hr].
    rewrite elem_of_visible_ids.
    pose proof (floor_le_iff scrollLeft squareSize col Hsize) as Hfc.
    pose proof (floor_le_iff scrollTop squareSize row Hsize) as Hfr.
    pose proof (lt_ceilDiv_iff (scrollLeft + width) squareSize col Hsize) as Hcc.
    pose proof (lt_ceilDiv_iff (scrollTop + height) squareSize row Hsize) as Hcr.
    split.
    + intros (col' & row' & Heq & Hc' & Hr').
      assert (Hsame : {| pos_x := col; pos_y := row |}
                      = {| pos_x := col'; pos_y := row' |}).
      { rewrite <- (calculateSquarePosition_of_id col row Hc Hr).
        rewrite <- (calculateSquarePosition_of_id col' row') by lia.
        rewrite Heq. reflexivity. }
      injection Hsame as <- <-. lia.
    + intros (H1 & H2 & H3 & H4). exists col, row.
      split; [reflexivity |]. lia.
Qed.

Lemma calculateVisibleSquares_overlap_witness :
  exists v : VisibleSquares,
    calculateVisibleSquares 20 0 30 30 14 = Some v
    /\ (calculateSquareId 1 0 ∈ visibleSquareIds v
        <-> 1 * 14 < 20 + 30 /\ 20 < (1 + 1) * 14
            /\ 0 * 14 < 0 + 30 /\ 0 < (0 + 1) * 14).
Proof.
  destruct (calculateVisibleSquares_overlap 20 0 30 30 14
              ltac:(lia) ltac:(lia) ltac:(lia)) as (v & Hv & _ & Hiff).
  exists v. split; [exact Hv |].
  exact (Hiff 1 0 eq_refl).
Defined.

(** ** The reconciled grid *)

Lemma applySnapshotDoc_length l d :
  length (applySnapshotDoc l d) = length l.
Proof.
  unfold applySnapshotDoc.
  destruct ((0 <=? doc_id d) && (doc_id d <? Z.of_nat (length l))); [| reflexivity].
  destruct (l !! Z.to_nat (doc_id d)); [apply length_insert | reflexivity].
Qed.

Lemma fold_applySnapshotDoc_length docs l :
  length (fold_left applySnapshotDoc docs l) = length l.
Proof.
  revert l. induction docs as [| d docs IH]; intros l; simpl; [reflexivity |].
  rewrite IH. apply applySnapshotDoc_length.
Qed.

Lemma reconcile_length docs :
  length (reconcile docs) = Z.to_nat (GRID_SIZE * GRID_SIZE).
Proof.
  unfold reconcile. rewrite fold_applySnapshotDoc_length.
  apply initializeGrid_length.
Qed.

(** One document applied to a grid, seen from position [i]. *)
Lemma applySnapshotDoc_lookup l d (i : nat) (s : Square) :
  l !! i = Some s ->
  applySnapshotDoc l d !! i
  = Some (if doc_id d =? Z.of_nat i then withDoc s (doc_data d) else s).
Proof.
  intros Hs.
  assert (Hlt : (i < length l)%nat) by (eapply lookup_lt_Some; eauto).
  unfold applySnapshotDoc.
  destruct (Z.eqb_spec (doc_id d) (Z.of_nat i)) as [Heq | Hne].
  - rewrite Heq, Nat2Z.id, Hs.
    replace ((0 <=? Z.of_nat i) && (Z.of_nat i <? Z.of_nat (length l))) with true
      by (symmetry; apply andb_true_iff; split;
          [apply Z.leb_le | apply Z.ltb_lt]; lia).
    rewrite list_lookup_insert_eq by exact Hlt. reflexivity.
  - destruct ((0 <=? doc_id d) && (doc_id d <? Z.of_nat (length l))) eqn:Hin;
      [| exact Hs].
    destruct (l !! Z.to_nat (doc_id d)) eqn:E; [| exact Hs].
    apply andb_true_iff in Hin as [H0 _]. apply Z.leb_le in H0.
    rewrite list_lookup_insert_ne by lia. exact Hs.
Qed.

Lemma withDoc_withDoc s d d' : withDoc (withDoc s d) d' = withDoc s d'.
Proof. reflexivity. Qed.

Lemma fold_applySnapshotDoc_lookup docs :
  forall l (i : nat) (s : Square),
  l !! i = Some s ->
  fold_left applySnapshotDoc docs l !! i
  = Some (match last (List.filter (fun d => doc_id d =? Z.of_nat i) docs) with
          | Some d => withDoc s (doc_data d)
          | None => s
          end).
Proof.
  induction docs as [| d docs IH]; intros l i s Hs; simpl; [exact Hs |].
  rewrite (IH _ i _ (applySnapshotDoc_lookup l d i s Hs)).
  destruct (doc_id d =? Z.of_nat i); [| reflexivity].
  destruct (List.filter (fun d0 => doc_id d0 =? Z.of_nat i) docs) as [| d' ds] eqn:E.
  - reflexivity.
  - change (last (d :: d' :: ds)) with (last (d' :: ds)).
    destruct (last (d' :: ds)) eqn:EL; [reflexivity |].
    apply last_None in EL. discriminate EL.
Qed.

(** X11: the reconciled grid depends on the batch only, document by
    document: the square of a valid id [k] is built from the last
    document of the batch whose id is [k], with its owner, its imageData
    (or [null]) and its color (or white) and with the default price 1 and
    an empty history; with no such document it is the default square. *)
Theorem reconcile_lookup (docs : list QueryDoc) (k : Z) :
  isValidSquareId k = true ->
  reconcile docs !! Z.to_nat k
  = Some (match last (List.filter (fun d => doc_id d =? k) docs) with
          | Some d =>
              {| sq_id := k;
                 owner := d_owner (doc_data d);
                 price := 1;
                 color := or_else (d_color (doc_data d)) (Some "#ffffff");
                 imageData := or_else (d_imageData (doc_data d)) None;
                 priceHistory := [] |}
          | None => defaultSquare k
          end).
Proof.
  intros Hk. apply isValidSquareId_spec in Hk.
  unfold reconcile.
  rewrite (fold_applySnapshotDoc_lookup docs initializeGrid (Z.to_nat k)
             (defaultSquare k) (initializeGrid_lookup k Hk)).
  rewrite Z2Nat.id by lia.
  destruct (last (List.filter (fun d => doc_id d =? k) docs)); reflexivity.
Qed.

Lemma reconcile_lookup_witness :
  reconcile [mkQueryDoc 7 docAliceBought; mkQueryDoc 7 docAliceDrew] !! 7%nat
  = Some {| sq_id := 7; owner := JStr "alice"; price := 1;
            color := Some "#ffffff"; imageData := Some drawing;
            priceHistory := [] |}.
Proof.
  exact (reconcile_lookup
           [mkQueryDoc 7 docAliceBought; mkQueryDoc 7 docAliceDrew] 7 eq_refl).
Defined.

(** Two grids of the full size are equal when they agree on every valid
    id. *)
Lemma reconcile_ext docs docs' :
  (forall k, isValidSquareId k = true ->
             reconcile docs !! Z.to_nat k = reconcile docs' !! Z.to_nat k) ->
  reconcile docs = reconcile docs'.
Proof.
  intros H. apply list_eq. intros i.
  destruct (decide (i < Z.to_nat (GRID_SIZE * GRID_SIZE))%nat) as [Hlt | Hge].
  - rewrite <- (Nat2Z.id i). apply H. apply isValidSquareId_spec. lia.
  - rewrite !lookup_ge_None_2; [reflexivity | |]; rewrite reconcile_length; lia.
Qed.

(** X12: documents whose id lies outside the grid are dropped: the
    batch without them reconciles to the same grid. *)
Theorem reconcile_drops_out_of_range (docs : list QueryDoc) :
  reconcile (List.filter docInRange docs) = reconcile docs.
Proof.
  apply reconcile_ext. intros k Hk.
  rewrite !reconcile_lookup by exact Hk.
  apply isValidSquareId_spec in Hk.
  assert (Hfilter :
            List.filter (fun d => doc_id d =? k) (List.filter docInRange docs)
            = List.filter (fun d => doc_id d =? k) docs).
  { induction docs as [| d docs IH]; simpl; [reflexivity |].
    unfold docInRange at 1.
    destruct (Z.eqb_spec (doc_id d) k) as [Heq | Hne].
    - replace ((0 <=? doc_id d) && (doc_id d <? GRID_SIZE * GRID_SIZE)) with true
        by (symmetry; apply andb_true_iff; split;
            [apply Z.leb_le | apply Z.ltb_lt]; lia).
      simpl. destruct (Z.eqb_spec (doc_id d) k); [| contradiction].
      rewrite IH. reflexivity.
    - destruct ((0 <=? doc_id d) && (doc_id d <? GRID_SIZE * GRID_SIZE));
        simpl; [destruct (Z.eqb_spec (doc_id d) k); [contradiction |] |]; exact IH. }
  rewrite Hfilter. reflexivity.
Qed.

Lemma filter_id_Permutation (k : Z) (docs docs' : list QueryDoc) :
  docs ≡ₚ docs' ->
  List.filter (fun d => doc_id d =? k) docs
  ≡ₚ List.filter (fun d => doc_id d =? k) docs'.
Proof.
  induction 1 as [| d l l' _ IH | d d' l | l l' l'' _ IH1 _ IH2]; simpl.
  - reflexivity.
  - destruct (doc_id d =? k); [constructor |]; exact IH.
  - destruct (doc_id d =? k), (doc_id d' =? k);
      try reflexivity; apply perm_swap.
  - etransitivity; eassumption.
Qed.

Lemma filter_id_at_most_one (k : Z) (docs : list QueryDoc) :
  NoDup (doc_id <$> docs) ->
  (length (List.filter (fun d => (doc_id d =? k)%Z) docs) <= 1)%nat.
Proof.
  induction docs as [| d docs IH]; intros Hnd; simpl; [lia |].
  rewrite fmap_cons in Hnd. apply NoDup_cons in Hnd as [Hnotin Hnd].
  destruct (Z.eqb_spec (doc_id d) k) as [Heq | Hne]; [| auto].
  replace (List.filter (fun d0 => doc_id d0 =? k) docs) with (@nil QueryDoc);
    [simpl; lia |].
  symmetry. clear IH Hnd.
  induction docs as [| d' docs IH]; simpl; [reflexivity |].
  rewrite fmap_cons in Hnotin. apply not_elem_of_cons in Hnotin as [Hne Hnotin].
  destruct (Z.eqb_spec (doc_id d') k); [congruence | auto].
Qed.

(** X13: the order of the documents of a batch does not matter when
    their ids are pairwise distinct: every rearrangement of the batch
    reconciles to the same grid. *)
Theorem reconcile_order_irrelevant (docs docs' : list QueryDoc) :
  NoDup (doc_id <$> docs) ->
  docs ≡ₚ docs' ->
  reconcile docs = reconcile docs'.
Proof.
  intros Hnd Hperm. apply reconcile_ext. intros k Hk.
  rewrite !reconcile_lookup by exact Hk.
  pose proof (filter_id_Permutation k docs docs' Hperm) as Hf.
  pose proof (filter_id_at_most_one k docs Hnd) as Hlen.
  destruct (List.filter (fun d => doc_id d =? k) docs) as [| d [| d2 ds]].
  - apply Permutation_nil_l in Hf. rewrite Hf. reflexivity.
  - apply Permutation_singleton_l in Hf. rewrite Hf. reflexivity.
  - simpl in Hlen. lia.
Qed.

Lemma reconcile_order_irrelevant_witness :
  reconcile [mkQueryDoc 7 docAliceDrew; mkQueryDoc 9 docBobBought]
  = reconcile [mkQueryDoc 9 docBobBought; mkQueryDoc 7 docAliceDrew].
Proof.
  apply reconcile_order_irrelevant.
  - apply NoDup_cons. split.
    + intros H. apply list_elem_of_singleton in H. discriminate H.
    + apply NoDup_singleton.
  - apply perm_swap.
Defined.

(** ** Invariants of a session *)

Lemma ledgerSquare_default (i : nat) : ledgerSquare i (defaultSquare (Z.of_nat i)).
Proof.
  split; [reflexivity |]. split; [exists 0%nat; reflexivity |].
  split; [intros _; split; reflexivity | constructor].
Qed.

Lemma ledgerGrid_initial : ledgerGrid initializeGrid.
Proof.
  split; [apply initializeGrid_length |].
  intros i s Hs.
  assert (Hlt : (i < length initializeGrid)%nat) by (eapply lookup_lt_Some; eauto).
  rewrite initializeGrid_length in Hlt.
  rewrite <- (Nat2Z.id i) in Hs.
  rewrite initializeGrid_lookup in Hs by lia.
  injection Hs as <-. apply ledgerSquare_default.
Qed.

Lemma ledgerGrid_reconcile docs : ledgerGrid (reconcile docs).
Proof.
  split; [apply reconcile_length |].
  intros i s Hs.
  destruct (reconcile_keepsDefaults docs i s Hs) as (Hid & Hp & Hh).
  split; [exact Hid |]. split; [exists 0%nat; rewrite Hp; reflexivity |].
  split; [intros _; split; assumption | rewrite Hh; constructor].
Qed.

Lemma ledgerGrid_quote (l : list Square) (k : Z) (q : Square) :
  ledgerGrid l ->
  findSquare l k = Some q ->
  exists n : nat, quotedPrice q = 2 ^ Z.of_nat n.
Proof.
  intros [_ Hl] Hq. unfold findSquare in Hq.
  apply find_some in Hq as [Hin _].
  apply list_elem_of_In, list_elem_of_lookup in Hin as [j Hj].
  destruct (Hl j q Hj) as (_ & [n Hn] & _).
  unfold quotedPrice. destruct (not_null (owner q)).
  - exists (S n). rewrite Hn, Nat2Z.inj_succ, Z.pow_succ_r by lia. lia.
  - exists n. exact Hn.
Qed.

Lemma ledgerGrid_purchaseUpdate l k b isOwned p nl :
  ledgerGrid l ->
  (exists n : nat, p = 2 ^ Z.of_nat n) ->
  ledgerGrid (map (purchaseUpdate k b isOwned p nl) l).
Proof.
  intros [Hlen Hl] Hp. split; [rewrite length_map; exact Hlen |].
  intros i s' Hs'. rewrite lookup_map in Hs'.
  destruct (l !! i) as [s |] eqn:Hs; [| discriminate].
  simpl in Hs'. injection Hs' as <-.
  destruct (Hl i s Hs) as (Hid & Hprice & Hnull & Hhist).
  unfold purchaseUpdate.
  destruct (sq_id s =? k);
    [| exact (conj Hid (conj Hprice (conj Hnull Hhist)))].
  split; [exact Hid |]. split; [exact Hp |].
  split; cbn [sq_id price owner priceHistory].
  - discriminate.
  - apply Forall_app. split; [exact Hhist |].
    destruct (isOwned && truthy (owner s)) eqn:E; [| constructor].
    apply andb_true_iff in E as [_ Ht].
    constructor; [| constructor]. split; [exact Ht | exact Hprice].
Qed.

Lemma ledgerGrid_saveUpdate l k img :
  ledgerGrid l -> ledgerGrid (map (saveUpdate k img) l).
Proof.
  intros [Hlen Hl]. split; [rewrite length_map; exact Hlen |].
  intros i s' Hs'. rewrite lookup_map in Hs'.
  destruct (l !! i) as [s |] eqn:Hs; [| discriminate].
  simpl in Hs'. injection Hs' as <-.
  pose proof (Hl i s Hs) as H.
  unfold saveUpdate. destruct (sq_id s =? k); exact H.
Qed.

(** X14: in every state a session can reach (through snapshots,
    sign-ins, clicks, purchases and saves, each handler possibly running
    from an earlier render) the grid has exactly [GRID_SIZE * GRID_SIZE]
    squares and the square at position [i] has id [i]; every price is a
    power of two; a square whose owner is [null] has price 1 and an
    empty history; every history entry names a non-empty owner and a
    price that is a power of two. *)
Theorem reachable_ledgerGrid (st : AppState) :
  reachable st ->
  length (squares st) = Z.to_nat (GRID_SIZE * GRID_SIZE)
  /\ forall (i : nat) (s : Square),
       squares st !! i = Some s ->
       sq_id s = Z.of_nat i
       /\ (exists n : nat, price s = 2 ^ Z.of_nat n)
       /\ (owner s = JNull -> price s = 1 /\ priceHistory s = [])
       /\ Forall (fun e => truthy (ph_owner e) = true
                           /\ exists n : nat, ph_price e = 2 ^ Z.of_nat n)
                 (priceHistory s).
Proof.
  change (reachable st -> ledgerGrid (squares st)).
  induction 1 as [| docs st _ IH | u st _ IH | r k st _ IHr _ IH
                  | r nl ns ok st _ IHr _ IH | r img ok st _ IHr _ IH].
  - exact ledgerGrid_initial.
  - apply ledgerGrid_reconcile.
  - exact IH.
  - rewrite handleSquareClick_squares. exact IH.
  - unfold finalizeSquarePurchase.
    destruct (selectedSquare r) as [k |]; [| exact IH].
    destruct (user r) as [u |]; [| exact IH].
    destruct (k =? 0); [exact IH |].
    destruct (findSquare (squares r) k) as [q |] eqn:Hq; [| exact IH].
    pose proof (ledgerGrid_quote (squares r) k q IHr Hq) as Hp.
    destruct ok; cbn [fst]; apply ledgerGrid_purchaseUpdate; assumption.
  - unfold handleSaveDrawing.
    destruct (currentSquare r) as [cs |]; [| exact IH].
    destruct (user r) as [u |]; [| exact IH].
    destruct ok; cbn [fst]; apply ledgerGrid_saveUpdate; exact IH.
Qed.

Lemma reachable_ledgerGrid_witness :
  length (squares (fst (finalizeSquarePurchase
                          (handleSquareClick bobReady 7 bobReady) 2000 2001 true
                          (onSquaresSnapshot [mkQueryDoc 7 docAliceDrew]
                             (handleSquareClick bobReady 7 bobReady)))))
  = Z.to_nat (GRID_SIZE * GRID_SIZE).
Proof.
  assert (Hbob : reachable bobReady)
    by (apply reach_auth, reach_snapshot, reach_initial).
  assert (Hclick : reachable (handleSquareClick bobReady 7 bobReady))
    by (apply reach_click; exact Hbob).
  refine (proj1 (reachable_ledgerGrid _ _)).
  apply reach_purchase; [exact Hclick |].
  apply reach_snapshot. exact Hclick.
Defined.

(** ** Counters *)

Import AppStats FullCanvasView.

Lemma fold_count_acc (l : list Square) (acc : Z) :
  fold_left
    (fun count square => if not_null (owner square) then count + 1 else count)
    l acc
  = acc + purchasedSquares l.
Proof.
  unfold purchasedSquares. revert acc.
  induction l as [| a l IH]; intros acc; cbn [fold_left]; [lia |].
  rewrite IH, (IH (if not_null (owner a) then 0 + 1 else 0)).
  destruct (not_null (owner a)); lia.
Qed.

Lemma purchasedSquares_cons (a : Square) (l : list Square) :
  purchasedSquares (a :: l)
  = (if not_null (owner a) then 1 else 0) + purchasedSquares l.
Proof.
  unfold purchasedSquares at 1. simpl. rewrite fold_count_acc.
  destruct (not_null (owner a)); lia.
Qed.

Lemma map_purchaseUpdate_absent k b o p nl (l : list Square) :
  k ∉ (sq_id <$> l) -> map (purchaseUpdate k b o p nl) l = l.
Proof.
  induction l as [| a l IH]; intros Hnotin; simpl; [reflexivity |].
  rewrite fmap_cons in Hnotin. apply not_elem_of_cons in Hnotin as [Hne Hnotin].
  rewrite IH by exact Hnotin.
  rewrite purchaseUpdate_other by congruence. reflexivity.
Qed.

Lemma purchasedSquares_purchaseUpdate k b o p nl (l : list Square) :
  forall (i : nat) (s : Square),
  uniqueIds l ->
  l !! i = Some s ->
  sq_id s = k ->
  purchasedSquares (map (purchaseUpdate k b o p nl) l)
  = purchasedSquares l + (if not_null (owner s) then 0 else 1).
Proof.
  unfold uniqueIds.
  induction l as [| a l IH]; intros i s Hnd Hs Hid; [discriminate |].
  rewrite fmap_cons in Hnd. apply NoDup_cons in Hnd as [Hnotin Hnd].
  destruct i as [| i]; simpl in Hs.
  - injection Hs as ->. simpl map.
    rewrite map_purchaseUpdate_absent by (rewrite <- Hid; exact Hnotin).
    rewrite !purchasedSquares_cons.
    unfold purchaseUpdate. rewrite Hid, Z.eqb_refl. cbn [owner not_null].
    destruct (not_null (owner s)); lia.
  - simpl map. rewrite !purchasedSquares_cons.
    rewrite (IH i s Hnd Hs Hid).
    rewrite purchaseUpdate_other; [lia |].
    intros Heq. apply Hnotin. rewrite Heq, <- Hid.
    apply list_elem_of_fmap. exists s. split; [reflexivity |].
    eapply list_elem_of_lookup_2; eauto.
Qed.

(** X15: a committed purchase raises the number of purchased squares
    shown in the header by one when the square had a [null] owner in the
    latest grid, and leaves it unchanged otherwise (a resale). *)
Theorem purchasedSquares_after_purchase
    r nl ns ok st (k : Z) (u : User) (q : Square) (i : nat) (s : Square) :
  uniqueIds (squares st) ->
  selectedSquare r = Some k ->
  k <> 0 ->
  user r = Some u ->
  findSquare (squares r) k = Some q ->
  squares st !! i = Some s ->
  sq_id s = k ->
  purchasedSquares (squares (fst (finalizeSquarePurchase r nl ns ok st)))
  = purchasedSquares (squares st) + (if not_null (owner s) then 0 else 1).
Proof.
  intros Hnd Hsel Hk Hu Hq Hs Hid.
  rewrite (finalizeSquarePurchase_commits r nl ns ok st k u q) by assumption.
  eapply purchasedSquares_purchaseUpdate; eauto.
Qed.

Lemma purchasedSquares_after_purchase_witness :
  purchasedSquares
    (squares (fst (finalizeSquarePurchase
                     (handleSquareClick bobReady 7 bobReady) 2000 2001 true
                     (handleSquareClick bobReady 7 bobReady))))
  = purchasedSquares (squares (handleSquareClick bobReady 7 bobReady)) + 1.
Proof.
  refine (purchasedSquares_after_purchase
            (handleSquareClick bobReady 7 bobReady) 2000 2001 true
            (handleSquareClick bobReady 7 bobReady) 7 bob (defaultSquare 7)
            7%nat (defaultSquare 7) _ _ _ _ _ _ _).
  - rewrite handleSquareClick_squares. exact initializeGrid_uniqueIds.
  - vm_compute; reflexivity.
  - lia.
  - vm_compute; reflexivity.
  - vm_compute; reflexivity.
  - vm_compute; reflexivity.
  - reflexivity.
Defined.

(** X16: the header and the full view count purchased squares
    differently: the header counts every owner that is not [null], the
    full view every owner that is truthy. The two numbers differ by the
    number of squares whose owner is [undefined] or the empty string. *)
Theorem purchased_header_vs_full_view (sqs : list Square) :
  purchasedSquares sqs
  = vs_purchasedSquares (computeStats sqs)
    + Z.of_nat (length (List.filter
                          (fun s => not_null (owner s) && negb (truthy (owner s)))
                          sqs)).
Proof.
  unfold computeStats. cbn [vs_purchasedSquares].
  induction sqs as [| a l IH]; [reflexivity |].
  rewrite purchasedSquares_cons, IH. simpl List.filter.
  destruct (owner a) as [| | o]; cbn [not_null truthy andb negb length];
    try destruct (negb (o =? "")%string); cbn [negb length]; lia.
Qed.

Lemma revenue_acc (l : list Square) (acc : Z) :
  fold_left (fun acc s => acc + (if price s =? 0 then 0 else price s)) l acc
  = acc + fold_left (fun acc s => acc + (if price s =? 0 then 0 else price s)) l 0.
Proof.
  revert acc. induction l as [| a l IH]; intros acc; cbn [fold_left]; [lia |].
  rewrite IH, (IH (0 + _)). lia.
Qed.

Lemma revenue_of_unit_prices (l : list Square) :
  Forall (fun s => price s = 1) l ->
  vs_totalRevenue (computeStats l) = Z.of_nat (length l).
Proof.
  unfold computeStats. cbn [vs_totalRevenue].
  induction 1 as [| a l Ha _ IH]; [reflexivity |].
  cbn [fold_left]. rewrite revenue_acc, IH, Ha. cbn [length].
  change (1 =? 0) with false. cbv iota. lia.
Qed.

(** X17: after a snapshot the full view reports [GRID_SIZE * GRID_SIZE]
    squares and a total revenue of the same amount, whatever prices the
    documents hold, because every reconciled square has price 1. *)
Theorem revenue_after_snapshot (docs : list QueryDoc) (st : AppState) :
  vs_totalSquares (computeStats (squares (onSquaresSnapshot docs st)))
  = GRID_SIZE * GRID_SIZE
  /\ vs_totalRevenue (computeStats (squares (onSquaresSnapshot docs st)))
     = GRID_SIZE * GRID_SIZE.
Proof.
  change (squares (onSquaresSnapshot docs st)) with (reconcile docs).
  split.
  - unfold computeStats. cbn [vs_totalSquares]. rewrite reconcile_length.
    apply Z2Nat.id. unfold GRID_SIZE. lia.
  - rewrite revenue_of_unit_prices.
    + rewrite reconcile_length. apply Z2Nat.id. unfold GRID_SIZE. lia.
    + apply Forall_lookup. intros i s Hs.
      exact (proj1 (proj2 (reconcile_keepsDefaults docs i s Hs))).
Qed.

(** ** More on the purchase and save handlers *)

(** X18: the purchase handler only ever appends to a history: after any
    run, committed or not, from a fresh or a stale render, every square
    keeps its id and its former priceHistory as a prefix, followed by at
    most one new entry, which records the owner and the price the square
    had in the latest grid. *)
Theorem priceHistory_is_append_only
    r nl ns ok st (i : nat) (s : Square) :
  squares st !! i = Some s ->
  exists (s' : Square) (added : list PriceHistoryEntry),
    squares (fst (finalizeSquarePurchase r nl ns ok st)) !! i = Some s'
    /\ sq_id s' = sq_id s
    /\ priceHistory s' = priceHistory s ++ added
    /\ (length added <= 1)%nat
    /\ Forall (fun e => ph_owner e = owner s /\ ph_price e = price s) added.
Proof.
  intros Hs.
  destruct (finalizeSquarePurchase_grid r nl ns ok st)
    as [-> | (k & b & o & p & _ & ->)].
  - exists s, []. rewrite app_nil_r. repeat apply conj; auto.
  - rewrite lookup_map, Hs. cbn [fmap option_fmap option_map].
    unfold purchaseUpdate. destruct (sq_id s =? k).
    + eexists. eexists. split; [reflexivity |]. cbn [sq_id priceHistory].
      split; [reflexivity |]. split; [reflexivity |].
      destruct (o && truthy (owner s)); cbn [length]; split;
        try lia; repeat constructor.
    + exists s, []. rewrite app_nil_r. repeat apply conj; auto.
Qed.

Lemma priceHistory_is_append_only_witness :
  exists (s' : Square) (added : list PriceHistoryEntry),
    squares (fst (finalizeSquarePurchase
                    (handleSquareClick bobReady 7 bobReady) 2000 2001 true
                    (onSquaresSnapshot [mkQueryDoc 7 docAliceDrew]
                       (handleSquareClick bobReady 7 bobReady)))) !! 7%nat
    = Some s'
    /\ priceHistory s' = [] ++ added
    /\ (length added <= 1)%nat.
Proof.
  destruct (priceHistory_is_append_only
              (handleSquareClick bobReady 7 bobReady) 2000 2001 true
              (onSquaresSnapshot [mkQueryDoc 7 docAliceDrew]
                 (handleSquareClick bobReady 7 bobReady))
              7%nat
              {| sq_id := 7; owner := JStr "alice"; price := 1;
                 color := Some "#ffffff"; imageData := Some drawing;
                 priceHistory := [] |}
              ltac:(vm_compute; reflexivity))
    as (s' & added & Hs' & _ & Hh & Hlen & _).
  exists s', added. repeat apply conj; assumption.
Defined.

(** X19: on an up-to-date render of a grid with unique ids, the
    document written by a purchase agrees with the square put into the
    local grid: same owner, same price and, when the two timestamps
    agree and the former owner is [null] or a non-empty string, the same
    priceHistory. *)
Theorem purchase_write_agrees_with_local_square
    (now : Z) st (k : Z) (u : User) (i : nat) (s : Square) :
  uniqueIds (squares st) ->
  selectedSquare st = Some k ->
  k <> 0 ->
  user st = Some u ->
  squares st !! i = Some s ->
  sq_id s = k ->
  owner s = JNull \/ truthy (owner s) = true ->
  exists (s' : Square) (w : DocWrite),
    squares (fst (finalizeSquarePurchase st now now true st)) !! i = Some s'
    /\ snd (finalizeSquarePurchase st now now true st) = [ (k, w) ]
    /\ w_owner w = Some (owner s')
    /\ w_price w = Some (price s')
    /\ w_priceHistory w = Some (priceHistory s').
Proof.
  intros Hnd Hsel Hk Hu Hs Hid Howner.
  assert (Hq : findSquare (squares st) k = Some s)
    by (rewrite <- Hid; eapply findSquare_lookup; eauto).
  rewrite (finalizeSquarePurchase_commits st now now true st k u s) by assumption.
  rewrite (finalizeSquarePurchase_writes st now now st k u s) by assumption.
  rewrite lookup_map, Hs. cbn [fmap option_fmap option_map].
  eexists. eexists. split; [reflexivity |]. split; [reflexivity |].
  unfold purchaseUpdate, purchaseWrite. rewrite Hid, Z.eqb_refl.
  cbn [w_owner w_price w_priceHistory owner price priceHistory].
  split; [reflexivity |]. split; [reflexivity |].
  destruct Howner as [Hnull | Htruthy].
  - rewrite Hnull. reflexivity.
  - rewrite Htruthy.
    assert (Hnn : not_null (owner s) = true)
      by (destruct (owner s); try discriminate; reflexivity).
    rewrite Hnn. reflexivity.
Qed.

Lemma purchase_write_agrees_with_local_square_witness :
  exists (s' : Square) (w : DocWrite),
    squares (fst (finalizeSquarePurchase
                    (handleSquareClick bobReady 7 bobReady) 2000 2000 true
                    (handleSquareClick bobReady 7 bobReady))) !! 7%nat = Some s'
    /\ w_owner w = Some (owner s')
    /\ w_price w = Some (price s').
Proof.
  destruct (purchase_write_agrees_with_local_square 2000
              (handleSquareClick bobReady 7 bobReady) 7 bob 7%nat
              (defaultSquare 7)
              ltac:(rewrite handleSquareClick_squares; exact initializeGrid_uniqueIds)
              ltac:(vm_compute; reflexivity) ltac:(lia)
              ltac:(vm_compute; reflexivity) ltac:(vm_compute; reflexivity)
              ltac:(reflexivity) ltac:(left; reflexivity))
    as (s' & w & Hs' & _ & Ho & Hp & _).
  exists s', w. repeat apply conj; assumption.
Defined.

(** X20: a store write that fails does not undo the local update. When
    [setDoc] throws, the purchase handler leaves the grid exactly as a
    successful run does, writes nothing and does not raise the success
    banner; the save handler likewise keeps the new artwork in the grid,
    writes nothing and leaves the editor open on the same square. *)
Theorem failed_store_write_keeps_local_update
    r nl ns (img : string) st :
  (squares (fst (finalizeSquarePurchase r nl ns false st))
   = squares (fst (finalizeSquarePurchase r nl ns true st))
   /\ snd (finalizeSquarePurchase r nl ns false st) = []
   /\ purchaseSuccess (fst (finalizeSquarePurchase r nl ns false st))
      = purchaseSuccess st)
  /\ (squares (fst (handleSaveDrawing r img false st))
      = squares (fst (handleSaveDrawing r img true st))
      /\ snd (handleSaveDrawing r img false st) = []
      /\ drawingCanvasOpen (fst (handleSaveDrawing r img false st))
         = drawingCanvasOpen st
      /\ currentSquare (fst (handleSaveDrawing r img false st))
         = currentSquare st).
Proof.
  split.
  - unfold finalizeSquarePurchase.
    destruct (selectedSquare r) as [k |]; [| repeat apply conj; reflexivity].
    destruct (user r) as [u |]; [| repeat apply conj; reflexivity].
    destruct (k =? 0); [repeat apply conj; reflexivity |].
    destruct (findSquare (squares r) k); repeat apply conj; reflexivity.
  - unfold handleSaveDrawing.
    destruct (currentSquare r) as [cs |]; [| repeat apply conj; reflexivity].
    destruct (user r) as [u |]; repeat apply conj; reflexivity.
Qed.

(** X21: a click opens the payment modal exactly for a signed-in user
    who is not the owner of the clicked square, when that square has no
    owner or has neither artwork nor a color other than white; in every
    other case the payment modal stays as it was. *)
Theorem click_opens_payment_modal_iff r (k : Z) st :
  paymentModalOpen (handleSquareClick r k st) = true
  <-> paymentModalOpen st = true
      \/ exists (u : User) (q : Square),
           user r = Some u
           /\ findSquare (squares r) k = Some q
           /\ strict_eq_str (owner q) (uid u) = false
           /\ (not_null (owner q) = false \/ hasDrawing q = false).
Proof.
  unfold handleSquareClick.
  destruct (findSquare (squares r) k) as [q |]; cbn [paymentModalOpen setSelectedSquare].
  - destruct (user r) as [u |]; cbn [paymentModalOpen setAuthModalOpen].
    + destruct (strict_eq_str (owner q) (uid u)) eqn:Eo;
        cbn [paymentModalOpen setDrawingCanvasOpen setIsEditing setCurrentSquare].
      * split; [intros H; left; exact H |].
        intros [H | (u' & q' & Hu & Hq & Hneq & _)]; [exact H |].
        injection Hu as <-. injection Hq as <-. congruence.
      * destruct (not_null (owner q)) eqn:En; destruct (hasDrawing q) eqn:Ed;
          cbn [andb paymentModalOpen setViewSquareModalOpen setCurrentSquare
                 setPaymentModalOpen];
          (split;
           [ intros H; first [ left; exact H
                             | right; exists u, q; repeat split; auto; fail ]
           | intros [H | (u' & q' & Hu & Hq & _ & Hcase)];
             [ try exact H; try reflexivity
             | injection Hu as <-; injection Hq as <-;
               try reflexivity; destruct Hcase; congruence ] ]).
    + split; [intros H; left; exact H |].
      intros [H | (u' & _ & Hu & _)]; [exact H | discriminate].
  - split; [intros H; left; exact H |].
    intros [H | (_ & q' & _ & Hq & _)]; [exact H | discriminate].
Qed.

(** X22: what a save writes is what the next snapshot shows, with one
    addition: after merging the payload of a save by [editor] into any
    stored document of a valid square, reconciling that document gives a
    square with the saved artwork (non-empty) and with [editor] as
    owner, whoever owned the stored document before. *)
Theorem saved_artwork_is_read_back
    (k : Z) (editor img : string) (d : DocData) :
  isValidSquareId k = true ->
  img <> "" ->
  reconcile [mkQueryDoc k (mergeDoc (saveWrite editor img) d)] !! Z.to_nat k
  = Some {| sq_id := k;
            owner := JStr editor;
            price := 1;
            color := or_else (d_color d) (Some "#ffffff");
            imageData := Some img;
            priceHistory := [] |}.
Proof.
  intros Hk Himg. rewrite reconcile_lookup by exact Hk.
  cbn [List.filter doc_id]. rewrite Z.eqb_refl. cbn [last doc_data].
  unfold mergeDoc, saveWrite.
  cbn [w_owner w_imageData w_color d_owner d_imageData d_color default
         fmap option_fmap option_map js_of_option].
  unfold id.
  change (or_else (JStr img) None)
    with (if String.eqb img "" then None else Some img).
  apply String.eqb_neq in Himg. rewrite Himg. reflexivity.
Qed.

Lemma saved_artwork_is_read_back_witness :
  reconcile [mkQueryDoc 7 (mergeDoc (saveWrite "alice" drawing) docBobBought)]
    !! Z.to_nat 7
  = Some {| sq_id := 7; owner := JStr "alice"; price := 1;
            color := or_else (d_color docBobBought) (Some "#ffffff");
            imageData := Some drawing; priceHistory := [] |}.
Proof.
  apply (saved_artwork_is_read_back 7 "alice" drawing docBobBought).
  - reflexivity.
  - discriminate.
Defined.

(** ** The undo history of the drawing editor *)

Section CanvasHistory.

Import DrawingCanvas.

Context {ImageData : Type}.

Lemma removelast_last_nonempty (l : list ImageData) :
  l <> [] -> exists x, last l = Some x /\ l = removelast l ++ [x].
Proof.
  intros Hl. destruct l as [| a l] using rev_ind; [contradiction |].
  exists a. rewrite last_snoc, removelast_last. split; reflexivity.
Qed.

(** X23: undo followed by redo restores the canvas. From a render with
    a canvas and at least two saved states, an undo and then a redo
    leave the pixels and the redo stack as they were, and the undo stack
    at its former length. *)
Theorem undo_then_redo_restores_canvas
    (st : CanvasState ImageData) (current : ImageData) :
  pixels _ st = Some current ->
  (2 <= length (undoStack _ st))%nat ->
  let undone := handleUndo _ st st in
  let redone := handleRedo _ undone undone in
  pixels _ redone = Some current
  /\ redoStack _ redone = redoStack _ st
  /\ length (undoStack _ redone) = length (undoStack _ st).
Proof.
  intros Hpix Hlen. cbv zeta. unfold handleUndo.
  destruct (Nat.leb_spec (length (undoStack _ st)) 1) as [Hle | _]; [lia |].
  rewrite Hpix.
  destruct (removelast_last_nonempty (undoStack _ st)) as (b & Hb & Hsplit).
  { intros E. rewrite E in Hlen. simpl in Hlen. lia. }
  rewrite Hb.
  destruct (removelast_last_nonempty (removelast (undoStack _ st)))
    as (a & Ha & Hsplit').
  { intros E. rewrite E in Hsplit. rewrite Hsplit in Hlen. simpl in Hlen. lia. }
  rewrite Ha. unfold handleRedo. cbn [redoStack pixels undoStack].
  rewrite length_app. cbn [length].
  replace (length (redoStack _ st) + 1 =? 0)%nat with false
    by (symmetry; apply Nat.eqb_neq; lia).
  rewrite last_snoc, removelast_last. cbn [pixels redoStack undoStack].
  repeat apply conj; try reflexivity.
  rewrite length_app. cbn [length].
  rewrite Hsplit at 2. rewrite length_app. cbn [length]. lia.
Qed.

(** X24: an undo never removes the oldest saved state: from a render
    with a canvas and a non-empty undo stack, the undo stack after an
    undo is still non-empty and still begins with the same state. *)
Theorem undo_keeps_initial_state
    (st : CanvasState ImageData) (first : ImageData) (rest : list ImageData) :
  undoStack _ st = first :: rest ->
  exists rest' : list ImageData,
    undoStack _ (handleUndo _ st st) = first :: rest'.
Proof.
  intros Hu. unfold handleUndo. rewrite Hu.
  destruct (length (first :: rest) <=? 1)%nat eqn:Hlen;
    [exists rest; exact Hu |].
  destruct (pixels _ st); [| exists rest; exact Hu].
  destruct rest as [| second rest]; [discriminate Hlen |].
  destruct (last (first :: second :: rest)); [| exists (second :: rest); exact Hu].
  cbn [undoStack]. exists (removelast (second :: rest)). reflexivity.
Qed.

(** X25: clearing the canvas can be undone. After a stroke has ended
    ([stopDrawing]), [clearCanvas] followed by an undo shows the drawing
    as it was before the clear, with the undo stack as the stroke left
    it; a redo then shows the cleared canvas again. *)
Theorem clear_then_undo_restores_drawing
    (fillWhite : ImageData -> ImageData)
    (st : CanvasState ImageData) (current : ImageData) :
  isDrawing _ st = true ->
  pixels _ st = Some current ->
  let drawn := stopDrawing _ st in
  let cleared := clearCanvas _ fillWhite drawn in
  let undone := handleUndo _ cleared cleared in
  pixels _ cleared = Some (fillWhite current)
  /\ pixels _ undone = Some current
  /\ undoStack _ undone = undoStack _ drawn
  /\ undoStack _ drawn = undoStack _ st ++ [current]
  /\ redoStack _ drawn = []
  /\ pixels _ (handleRedo _ undone undone) = Some (fillWhite current).
Proof.
  intros Hd Hp. cbv zeta.
  unfold stopDrawing, saveToUndoStack. rewrite Hd. cbn [pixels]. rewrite Hp.
  unfold clearCanvas, saveToUndoStack. cbn [pixels undoStack redoStack
    isDrawing selectedColor recentColors].
  unfold handleUndo. cbn [pixels undoStack redoStack isDrawing].
  rewrite <- app_assoc. cbn [app].
  rewrite length_app. cbn [length].
  replace (length (undoStack _ st) + 2 <=? 1)%nat with false
    by (symmetry; apply Nat.leb_gt; lia).
  replace (undoStack _ st ++ [current; current])
    with ((undoStack _ st ++ [current]) ++ [current])
    by (rewrite <- app_assoc; reflexivity).
  rewrite last_snoc, removelast_last, last_snoc.
  unfold handleRedo. cbn [pixels undoStack redoStack app length Nat.eqb last].
  repeat apply conj; reflexivity.
Qed.

(** X26: choosing colours keeps the list of recent colours free of
    repetitions and at most ten long, and makes the chosen colour the
    selected one and a member of the list. *)
Theorem recent_colors_bounded_and_distinct
    (st : CanvasState ImageData) (hexColor : string) :
  NoDup (recentColors _ st) ->
  (length (recentColors _ st) <= 10)%nat ->
  let after := updateSelectedColor _ st (Some hexColor) st in
  NoDup (recentColors _ after)
  /\ (length (recentColors _ after) <= 10)%nat
  /\ selectedColor _ after = hexColor
  /\ hexColor ∈ recentColors _ after.
Proof.
  intros Hnd Hlen. cbv zeta. unfold updateSelectedColor.
  cbn [recentColors selectedColor].
  destruct (existsb (String.eqb hexColor) (recentColors _ st)) eqn:E.
  - apply existsb_exists in E as (c & Hin & Hc).
    apply String.eqb_eq in Hc. subst c.
    repeat apply conj; auto. apply list_elem_of_In. exact Hin.
  - repeat apply conj.
    + apply NoDup_cons. split.
      * intros Hin. apply elem_of_take in Hin as (i & Hi & _).
        apply list_elem_of_lookup_2, list_elem_of_In in Hi.
        assert (Hex : existsb (String.eqb hexColor) (recentColors _ st) = true)
          by (apply existsb_exists; exists hexColor; split;
              [exact Hi | apply String.eqb_refl]).
        congruence.
      * eapply sublist_NoDup; [exact Hnd | apply sublist_take].
    + cbn [length]. rewrite length_take. lia.
    + reflexivity.
    + apply list_elem_of_here.
Qed.

End CanvasHistory.

Lemma undo_then_redo_restores_canvas_witness :
  let st := DrawingCanvas.mkCanvas nat (Some 2%nat) [0%nat; 1%nat; 2%nat] []
              false "#000000" [] in
  DrawingCanvas.pixels _
    (DrawingCanvas.handleRedo _ (DrawingCanvas.handleUndo _ st st)
       (DrawingCanvas.handleUndo _ st st))
  = Some 2%nat.
Proof.
  cbv zeta.
  exact (proj1 (undo_then_redo_restores_canvas
                  (DrawingCanvas.mkCanvas nat (Some 2%nat) [0%nat; 1%nat; 2%nat] []
                     false "#000000" [])
                  2%nat eq_refl ltac:(simpl; lia))).
Defined.

Lemma undo_keeps_initial_state_witness :
  exists rest' : list nat,
    DrawingCanvas.undoStack _
      (DrawingCanvas.handleUndo _
         (DrawingCanvas.mkCanvas nat (Some 2%nat) [0%nat; 1%nat; 2%nat] []
            false "#000000" [])
         (DrawingCanvas.mkCanvas nat (Some 2%nat) [0%nat; 1%nat; 2%nat] []
            false "#000000" []))
    = 0%nat :: rest'.
Proof.
  exact (undo_keeps_initial_state
           (DrawingCanvas.mkCanvas nat (Some 2%nat) [0%nat; 1%nat; 2%nat] []
              false "#000000" [])
           0%nat [1%nat; 2%nat] eq_refl).
Defined.

Lemma clear_then_undo_restores_drawing_witness :
  let st := DrawingCanvas.mkCanvas nat (Some 3%nat) [0%nat; 1%nat] [2%nat]
              true "#000000" [] in
  DrawingCanvas.pixels _
    (DrawingCanvas.handleUndo _
       (DrawingCanvas.clearCanvas _ (fun _ => 9%nat)
          (DrawingCanvas.stopDrawing _ st))
       (DrawingCanvas.clearCanvas _ (fun _ => 9%nat)
          (DrawingCanvas.stopDrawing _ st)))
  = Some 3%nat.
Proof.
  cbv zeta.
  exact (proj1 (proj2 (clear_then_undo_restores_drawing (fun _ => 9%nat)
                         (DrawingCanvas.mkCanvas nat (Some 3%nat) [0%nat; 1%nat]
                            [2%nat] true "#000000" [])
                         3%nat eq_refl eq_refl))).
Defined.

Lemma recent_colors_bounded_and_distinct_witness :
  DrawingCanvas.recentColors _
    (DrawingCanvas.updateSelectedColor _
       (DrawingCanvas.mkCanvas nat None [] [] false "#000000" ["#ff0000"])
       (Some "#00ff00")
       (DrawingCanvas.mkCanvas nat None [] [] false "#000000" ["#ff0000"]))
  = ["#00ff00"; "#ff0000"]
  /\ NoDup (DrawingCanvas.recentColors _
              (DrawingCanvas.updateSelectedColor _
                 (DrawingCanvas.mkCanvas nat None [] [] false "#000000" ["#ff0000"])
                 (Some "#00ff00")
                 (DrawingCanvas.mkCanvas nat None [] [] false "#000000" ["#ff0000"]))).
Proof.
  split; [reflexivity |].
  exact (proj1 (recent_colors_bounded_and_distinct
                  (DrawingCanvas.mkCanvas nat None [] [] false "#000000" ["#ff0000"])
                  "#00ff00"
                  ltac:(apply NoDup_singleton) ltac:(simpl; lia))).
Defined.

(** ** The signed-in user *)

Import AuthListener.

Lemma orString_nonempty (a b : option string) (d : string) :
  (forall s, b = Some s -> s <> "") ->
  orString a b = Some d -> d <> "".
Proof.
  intros Hb. unfold orString. destruct a as [s |].
  - destruct (String.eqb_spec s "") as [-> | Hne].
    + apply Hb.
    + intros H. injection H as <-. exact Hne.
  - apply Hb.
Qed.

Lemma orString_is_Some (a : option string) (d : string) :
  exists e, orString a (Some d) = Some e.
Proof.
  unfold orString. destruct a as [s |]; [| eauto].
  destruct (String.eqb s ""); eauto.
Qed.


(** ** The grid size effect *)

Import AppLayout.

(** X28: for a window at least 10 pixels wide and 62 pixels high, the
    resize effect of [App] chooses a square size between
    [SQUARE_MIN_SIZE] and [SQUARE_MAX_SIZE] and between 0 and [GRID_SIZE]
    columns and rows; the grid fits into the available space, and in
    each direction either all [GRID_SIZE] squares are shown or less than
    one square of space is left over. *)
Theorem updateGridSize_fits (innerWidth innerHeight : Z) :
  10 <= innerWidth ->
  62 <= innerHeight ->
  let g := updateGridSize innerWidth innerHeight in
  SQUARE_MIN_SIZE <= gd_squareSize g <= SQUARE_MAX_SIZE
  /\ 0 <= gd_visibleCols g <= GRID_SIZE
  /\ 0 <= gd_visibleRows g <= GRID_SIZE
  /\ gd_width g = gd_visibleCols g * gd_squareSize g
  /\ gd_height g = gd_visibleRows g * gd_squareSize g
  /\ gd_width g <= innerWidth - 10
  /\ gd_height g <= innerHeight - 62
  /\ (gd_visibleCols g = GRID_SIZE
      \/ innerWidth - 10 - gd_width g < gd_squareSize g)
  /\ (gd_visibleRows g = GRID_SIZE
      \/ innerHeight - 62 - gd_height g < gd_squareSize g).
Proof.
  intros Hw Hh. unfold updateGridSize. cbv zeta.
  cbn [gd_squareSize gd_visibleCols gd_visibleRows gd_width gd_height].
  replace (innerHeight - 52 - 10) with (innerHeight - 62) by lia.
  set (size := Z.max SQUARE_MIN_SIZE
                 (Z.min (Z.min ((innerWidth - 10) / GRID_SIZE)
                               ((innerHeight - 62) / GRID_SIZE))
                        SQUARE_MAX_SIZE)).
  assert (Hsize : SQUARE_MIN_SIZE <= size <= SQUARE_MAX_SIZE)
    by (unfold size, SQUARE_MIN_SIZE, SQUARE_MAX_SIZE; lia).
  unfold SQUARE_MIN_SIZE, SQUARE_MAX_SIZE, GRID_SIZE in *.
  pose proof (Z.div_pos (innerWidth - 10) size ltac:(lia) ltac:(lia)).
  pose proof (Z.div_pos (innerHeight - 62) size ltac:(lia) ltac:(lia)).
  pose proof (Z.div_mod (innerWidth - 10) size ltac:(lia)).
  pose proof (Z.div_mod (innerHeight - 62) size ltac:(lia)).
  pose proof (Z.mod_pos_bound (innerWidth - 10) size ltac:(lia)).
  pose proof (Z.mod_pos_bound (innerHeight - 62) size ltac:(lia)).
  repeat apply conj; first [lia | nia].
Qed.

Lemma updateGridSize_fits_witness :
  gd_width (updateGridSize 1920 1080) <= 1920 - 10.
Proof.
  exact (proj1 (proj2 (proj2 (proj2 (proj2 (proj2
           (updateGridSize_fits 1920 1080 ltac:(lia) ltac:(lia)))))))).
Defined.

(** ** The payment endpoint *)

Import Functions.


(** ** The initial grid *)

(** X30: the ids that [isValidSquareId] accepts are exactly the ids of
    the squares of the initial grid, each stored at the position of its
    id and in the default state: no owner, price
    [INITIAL_SQUARE_PRICE], white, no artwork, no history. *)
Theorem initializeGrid_holds_exactly_the_valid_ids (k : Z) :
  isValidSquareId k = true
  <-> initializeGrid !! Z.to_nat k
      = Some {| sq_id := k; owner := JNull; price := INITIAL_SQUARE_PRICE;
                color := Some "#ffffff"; imageData := None;
                priceHistory := [] |}.
Proof.
  split.
  - intros Hk. apply isValidSquareId_spec in Hk.
    exact (initializeGrid_lookup k Hk).
  - intros Hl. apply isValidSquareId_spec.
    assert (Hlt : (Z.to_nat k < length initializeGrid)%nat)
      by (eapply lookup_lt_Some; eauto).
    rewrite initializeGrid_length in Hlt.
    destruct (Z.le_gt_cases 0 k) as [Hk | Hk]; [lia |].
    exfalso.
    replace (Z.to_nat k) with (Z.to_nat 0) in Hl by lia.
    rewrite initializeGrid_lookup in Hl by (unfold GRID_SIZE; lia).
    injection Hl as Hid. lia.
Qed.
